(** * Video-Analise: the annotation model and the clip playback machine

    A shallow embedding of [src/App.tsx], [src/types.ts] and
    [src/components/Modal.tsx].

    - A JavaScript [number] is an IEEE-754 binary64 value: it is embedded as
      Rocq's primitive [float], with the same arithmetic.
    - The React component [App] is embedded as a record of its [useState]
      cells and [useRef] cells, and every handler as a function from state
      to state, the render that follows it included.  A handler bound to a
      DOM event runs against the state of the latest render (React
      re-renders between two discrete DOM events).  An updater function
      handed to a setter after another update has been queued runs at that
      render: what it reads from a ref, it reads then.  The sync loop runs
      the closure of the render its effect was created in.
    - [generateId] draws from [Math.random]; the drawn identifiers are
      inputs of the handlers that call it.
    - The <video> element is a record of the four attributes the component
      reads and writes; [play()], [pause()] and attribute writes are stores.
      Playback itself (the position moving while the element plays) is the
      environment step [videoAdvance].
    - Closures handed to the modal are defunctionalised ([ModalAction]). *)

From Stdlib Require Import Floats Bool List String Ascii DecimalString Arith ZArith Lia.
Import ListNotations.
Open Scope string_scope.
Open Scope float_scope.

(** ** JavaScript numbers *)

Module JS.

Definition number := float.

(** ToBoolean on a number: [0], [-0] and [NaN] are falsy. *)
Definition falsy (x : number) : bool := is_zero x || is_nan x.

(** [x || y] on numbers. *)
Definition or_else (x y : number) : number := if falsy x then y else x.

(** [Math.min] of two numbers: NaN is contagious and [-0] is below [+0]. *)
Definition Math_min (a b : number) : number :=
  if is_nan a || is_nan b then nan
  else if a <? b then a
  else if b <? a then b
  else if get_sign a then a else b.

Definition Math_abs (a : number) : number := abs a.

Definition Math_PI : number := 0x1.921fb54442d18p+1.

(** ToBoolean on a string: only the empty string is falsy. *)
Definition str_truthy (s : string) : bool :=
  match s with EmptyString => false | _ => true end.

(** [a !== b] on strings. *)
Definition str_neq (a b : string) : bool := negb (String.eqb a b).

(** Template-literal rendering of an array length. *)
Definition show_nat (n : nat) : string := NilEmpty.string_of_uint (Nat.to_uint n).

(** A playback position: [0] or above it. *)
Definition isPosition (t : number) : Prop := t = 0 \/ (0 <? t) = true.

End JS.
Import JS.

(** ** Data models ([src/types.ts]) *)

Record Point := mkPoint { x : number; y : number }.

Record DrawingPath := mkDrawingPath {
  d_id : string;
  d_time : number;
  d_points : list Point;
  d_color : string;
  d_size : number
}.

Record Annotation := mkAnnotation {
  a_id : string;
  a_time : number;
  a_x : number;
  a_y : number;
  a_text : string;
  a_color : string
}.

Record Clip := mkClip {
  c_id : string;
  c_name : string;
  startTime : number;
  endTime : number;
  c_duration : number;
  speed : number
}.

Inductive ToolMode := point | pen | none.

Definition ToolMode_eqb (a b : ToolMode) : bool :=
  match a, b with
  | point, point | pen, pen | none, none => true
  | _, _ => false
  end.

(** ** Pointer events and the canvas element *)

Record Touch := mkTouch { t_clientX : number; t_clientY : number }.

(** A [React.MouseEvent] carries its own position, a [React.TouchEvent]
    carries the list [touches]. *)
Inductive PointerEvent :=
| MouseEvent (clientX clientY : number)
| TouchEvent (touches : list Touch).

Record DOMRect := mkRect {
  left : number; top : number; width : number; height : number
}.

(** The overlay <canvas>: its bounding box on screen, its pixel size, whether
    [getContext('2d')] yields a context, and the text metrics of that
    context. *)
Record Canvas := mkCanvas {
  getBoundingClientRect : DOMRect;
  cv_width : number;
  cv_height : number;
  has2d : bool;
  measureText_width : string -> number
}.

(** [getNormalizedPos] (App.tsx 95-103).  ['touches' in e] selects the first
    touch point; reading [e.touches[0].clientX] on an empty touch list throws
    a TypeError, which is the [None] result. *)
Definition getNormalizedPos (e : PointerEvent) (canvas : Canvas) : option Point :=
  let rect := getBoundingClientRect canvas in
  let client :=
    match e with
    | TouchEvent touches =>
        match touches with
        | t0 :: _ => Some (t_clientX t0, t_clientY t0)
        | [] => None
        end
    | MouseEvent clientX clientY => Some (clientX, clientY)
    end in
  match client with
  | Some (clientX, clientY) =>
      Some {| x := (clientX - left rect) / width rect;
              y := (clientY - top rect) / height rect |}
  | None => None
  end.

(** ** The <video> element *)

Record Video := mkVideo {
  currentTime : number;
  duration : number;
  paused : bool;
  playbackRate : number
}.

Definition video_pause (v : Video) : Video :=
  {| currentTime := currentTime v; duration := duration v;
     paused := true; playbackRate := playbackRate v |}.

Definition video_play (v : Video) : Video :=
  {| currentTime := currentTime v; duration := duration v;
     paused := false; playbackRate := playbackRate v |}.

Definition video_seek (t : number) (v : Video) : Video :=
  {| currentTime := t; duration := duration v;
     paused := paused v; playbackRate := playbackRate v |}.

Definition video_rate (r : number) (v : Video) : Video :=
  {| currentTime := currentTime v; duration := duration v;
     paused := paused v; playbackRate := r |}.

(** ** Files and the archive *)

Record Blob := mkBlob { blob_type : string; blob_data : string }.

Record File := mkFile { file_name : string; file_type : string; file_data : string }.

(** [URL.createObjectURL(file)]. *)
Inductive ObjectURL := createObjectURL (f : File).

(** What [JSON.parse(json) as AnalysisData] yields.  A field that is absent
    from the record reads as [undefined]: it is [None] here.  A field that
    is present has the type [types.ts] declares for it. *)
Record ParsedData := mkParsed {
  p_notes : option string;
  p_drawings : option (list DrawingPath);
  p_annotations : option (list Annotation);
  p_clips : option (list Clip);
  p_primaryVideoFileName : option string
}.

(** The text of an archive entry, by what [JSON.parse] makes of it.  A value
    that is not an object (a number, a string, an array) reads like an
    object that has none of the fields. *)
Inductive JsonText :=
| Malformed                    (* JSON.parse throws a SyntaxError *)
| JsonNull                     (* parses to null: reading a field throws *)
| JsonObject (d : ParsedData).

(** One entry of a zip: [async("string")] seen through [JSON.parse], and
    [async("blob")]. *)
Record ZipEntry := mkEntry { as_json : JsonText; as_blob : Blob }.

Definition Zip := list (string * ZipEntry).

(** [zip.file(name)]: the entry of that name, or null. *)
Fixpoint zip_file (name : string) (zip : Zip) : option ZipEntry :=
  match zip with
  | [] => None
  | (n, e) :: rest => if String.eqb n name then Some e else zip_file name rest
  end.

(** The selected file: [JSZip.loadAsync] rejects on anything but a zip. *)
Inductive ArchiveFile :=
| NotAZip
| ZipFile (zip : Zip).

(** ** The modal ([ModalConfig] of types.ts, with its closures as data) *)

Inductive ModalType := alert | confirm | input.

(** The callback [showPrompt] receives from [handleStartInteraction]: it
    captures [pos] and [brushColor] of the render the press happened in. *)
Inductive PromptCallback :=
| AddPointAndClip (pos : Point) (brushColor : string).

Inductive ModalAction :=
| Noop                              (* () => {} *)
| CloseModal                        (* () => setModalConfig(prev => ({...prev, isOpen: false})) *)
| PromptThen (k : PromptCallback).  (* (val) => { if (val) k(val); close } *)

Record ModalConfig := mkModal {
  isOpen : bool;
  m_type : ModalType;
  title : string;
  message : option string;
  defaultValue : option string;
  onConfirm : ModalAction;
  onCancel : ModalAction
}.

(** ** The state of [App] *)

Record SavedState := mkSaved { sv_time : number; wasPlaying : bool }.

(** Video & Playback, Clip Logic *)
Record Playback := mkPlayback {
  videoRef : option Video;
  isPlaying : bool;
  playbackSpeed : number;
  isClipPlaying : bool;
  activeClipId : option string;
  videoStateBeforeClip : SavedState
}.

(** Tools *)
Record Tools := mkTools {
  currentMode : ToolMode;
  brushColor : string;
  brushSize : number;
  isDrawing : bool;
  currentPathRef : list Point
}.

(** Data *)
Record Data := mkData {
  notes : string;
  drawings : list DrawingPath;
  annotations : list Annotation;
  clips : list Clip
}.

(** Files *)
Record Files := mkFiles {
  videoSrc : option ObjectURL;
  videoFileName : option string;
  originalVideoFile : option File
}.

Record App := mkApp {
  playback : Playback;
  canvasRef : option Canvas;
  tools : Tools;
  data : Data;
  files : Files;
  modalConfig : ModalConfig
}.

Definition initialModal : ModalConfig :=
  {| isOpen := false; m_type := alert; title := ""; message := None;
     defaultValue := None; onConfirm := Noop; onCancel := Noop |}.

(** The state of the first render. *)
Definition initialApp : App :=
  {| playback := {| videoRef := None; isPlaying := false; playbackSpeed := 1;
                    isClipPlaying := false; activeClipId := None;
                    videoStateBeforeClip := {| sv_time := 0; wasPlaying := false |} |};
     canvasRef := None;
     tools := {| currentMode := point; brushColor := "#00ff00"; brushSize := 5;
                 isDrawing := false; currentPathRef := [] |};
     data := {| notes := ""; drawings := []; annotations := []; clips := [] |};
     files := {| videoSrc := None; videoFileName := None; originalVideoFile := None |};
     modalConfig := initialModal |}.

(** *** State setters *)

Definition setPlayback (p : Playback) (s : App) : App :=
  {| playback := p; canvasRef := canvasRef s; tools := tools s;
     data := data s; files := files s; modalConfig := modalConfig s |}.

Definition setTools (t : Tools) (s : App) : App :=
  {| playback := playback s; canvasRef := canvasRef s; tools := t;
     data := data s; files := files s; modalConfig := modalConfig s |}.

Definition setData (d : Data) (s : App) : App :=
  {| playback := playback s; canvasRef := canvasRef s; tools := tools s;
     data := d; files := files s; modalConfig := modalConfig s |}.

Definition setFiles (f : Files) (s : App) : App :=
  {| playback := playback s; canvasRef := canvasRef s; tools := tools s;
     data := data s; files := f; modalConfig := modalConfig s |}.

Definition setModalConfig (m : ModalConfig) (s : App) : App :=
  {| playback := playback s; canvasRef := canvasRef s; tools := tools s;
     data := data s; files := files s; modalConfig := m |}.

Definition setNotes (v : string) (s : App) : App :=
  setData {| notes := v; drawings := drawings (data s);
             annotations := annotations (data s); clips := clips (data s) |} s.

Definition setDrawings (v : list DrawingPath) (s : App) : App :=
  setData {| notes := notes (data s); drawings := v;
             annotations := annotations (data s); clips := clips (data s) |} s.

Definition setAnnotations (v : list Annotation) (s : App) : App :=
  setData {| notes := notes (data s); drawings := drawings (data s);
             annotations := v; clips := clips (data s) |} s.

Definition setClips (v : list Clip) (s : App) : App :=
  setData {| notes := notes (data s); drawings := drawings (data s);
             annotations := annotations (data s); clips := v |} s.

Definition setIsDrawing (v : bool) (s : App) : App :=
  setTools {| currentMode := currentMode (tools s); brushColor := brushColor (tools s);
              brushSize := brushSize (tools s); isDrawing := v;
              currentPathRef := currentPathRef (tools s) |} s.

Definition setCurrentPath (v : list Point) (s : App) : App :=
  setTools {| currentMode := currentMode (tools s); brushColor := brushColor (tools s);
              brushSize := brushSize (tools s); isDrawing := isDrawing (tools s);
              currentPathRef := v |} s.

Definition setVideo (v : option Video) (s : App) : App :=
  let p := playback s in
  setPlayback {| videoRef := v; isPlaying := isPlaying p;
                 playbackSpeed := playbackSpeed p; isClipPlaying := isClipPlaying p;
                 activeClipId := activeClipId p;
                 videoStateBeforeClip := videoStateBeforeClip p |} s.

Definition setIsPlaying (b : bool) (s : App) : App :=
  let p := playback s in
  setPlayback {| videoRef := videoRef p; isPlaying := b;
                 playbackSpeed := playbackSpeed p; isClipPlaying := isClipPlaying p;
                 activeClipId := activeClipId p;
                 videoStateBeforeClip := videoStateBeforeClip p |} s.

Definition setIsClipPlaying (b : bool) (s : App) : App :=
  let p := playback s in
  setPlayback {| videoRef := videoRef p; isPlaying := isPlaying p;
                 playbackSpeed := playbackSpeed p; isClipPlaying := b;
                 activeClipId := activeClipId p;
                 videoStateBeforeClip := videoStateBeforeClip p |} s.

Definition setActiveClipId (i : option string) (s : App) : App :=
  let p := playback s in
  setPlayback {| videoRef := videoRef p; isPlaying := isPlaying p;
                 playbackSpeed := playbackSpeed p; isClipPlaying := isClipPlaying p;
                 activeClipId := i;
                 videoStateBeforeClip := videoStateBeforeClip p |} s.

Definition setVideoStateBeforeClip (sv : SavedState) (s : App) : App :=
  let p := playback s in
  setPlayback {| videoRef := videoRef p; isPlaying := isPlaying p;
                 playbackSpeed := playbackSpeed p; isClipPlaying := isClipPlaying p;
                 activeClipId := activeClipId p;
                 videoStateBeforeClip := sv |} s.

Definition setVideoSrc (v : option ObjectURL) (s : App) : App :=
  setFiles {| videoSrc := v; videoFileName := videoFileName (files s);
              originalVideoFile := originalVideoFile (files s) |} s.

Definition setVideoFileName (v : option string) (s : App) : App :=
  setFiles {| videoSrc := videoSrc (files s); videoFileName := v;
              originalVideoFile := originalVideoFile (files s) |} s.

Definition setOriginalVideoFile (v : option File) (s : App) : App :=
  setFiles {| videoSrc := videoSrc (files s); videoFileName := videoFileName (files s);
              originalVideoFile := v |} s.

(** ** Modal helpers (App.tsx 54-91, Modal.tsx 22-24) *)

Definition showAlert (msg : string) (s : App) : App :=
  setModalConfig {| isOpen := true; m_type := alert; title := "Aviso";
                    message := Some msg; defaultValue := None;
                    onConfirm := CloseModal; onCancel := CloseModal |} s.

Definition showPrompt (ttl : string) (k : PromptCallback) (dflt : string)
    (s : App) : App :=
  setModalConfig {| isOpen := true; m_type := input; title := ttl;
                    message := None; defaultValue := Some dflt;
                    onConfirm := PromptThen k; onCancel := CloseModal |} s.

(** [setModalConfig(prev => ({ ...prev, isOpen: false }))] *)
Definition closeModal (s : App) : App :=
  let m := modalConfig s in
  setModalConfig {| isOpen := false; m_type := m_type m; title := title m;
                    message := message m; defaultValue := defaultValue m;
                    onConfirm := onConfirm m; onCancel := onCancel m |} s.

(** ** Render pipeline (App.tsx 105-159) *)

(** Calls made on the 2d context, in order. *)
Inductive CanvasOp :=
| clearRect (x0 y0 w h : number)
| strokeStyle (c : string)
| lineWidth (w : number)
| lineCap (v : string)
| lineJoin (v : string)
| beginPath
| moveTo (px py : number)
| lineTo (px py : number)
| stroke
| arc (px py r a0 a1 : number)
| fillStyle (c : string)
| fill
| font (v : string)
| fillRect (x0 y0 w h : number)
| textAlign (v : string)
| fillText (txt : string) (px py : number).

(** [videoRef.current?.currentTime || 0] *)
Definition videoTime (s : App) : number :=
  match videoRef (playback s) with
  | Some v => or_else (currentTime v) 0
  | None => 0
  end.

(** The test both [forEach] bodies make: [Math.abs(item.time - time) < 0.5]. *)
Definition shown (itemTime time : number) : bool :=
  Math_abs (itemTime - time) <? 0.5.

(** [drawing.points.forEach((p, i) => ...)]: [moveTo] for index 0, [lineTo]
    for the others. *)
Definition tracePoints (canvas : Canvas) (pts : list Point) : list CanvasOp :=
  match pts with
  | [] => []
  | p :: rest =>
      moveTo (x p * cv_width canvas) (y p * cv_height canvas)
      :: map (fun q => lineTo (x q * cv_width canvas) (y q * cv_height canvas)) rest
  end.

(** The polyline of one drawing: the body of the first [if]. *)
Definition strokeDrawing (canvas : Canvas) (drawing : DrawingPath) : list CanvasOp :=
  [strokeStyle (d_color drawing); lineWidth (d_size drawing);
   lineCap "round"; lineJoin "round"; beginPath]
  ++ tracePoints canvas (d_points drawing)
  ++ [stroke].

(** The marker and label of one annotation: the body of the second [if]. *)
Definition markAnnotation (canvas : Canvas) (ann : Annotation) : list CanvasOp :=
  let px := a_x ann * cv_width canvas in
  let py := a_y ann * cv_height canvas in
  let textWidth := measureText_width canvas (a_text ann) in
  [beginPath; arc px py 8 0 (2 * Math_PI); fillStyle (a_color ann); fill;
   strokeStyle "white"; lineWidth 2; stroke;
   font "12px sans-serif"; fillStyle "rgba(0,0,0,0.8)";
   fillRect (px - textWidth / 2 - 4) (py + 12) (textWidth + 8) 20;
   fillStyle "white"; textAlign "center"; fillText (a_text ann) px (py + 26)].

Definition paintDrawing (canvas : Canvas) (time : number) (drawing : DrawingPath)
    : list CanvasOp :=
  if shown (d_time drawing) time then strokeDrawing canvas drawing else [].

Definition paintAnnotation (canvas : Canvas) (time : number) (ann : Annotation)
    : list CanvasOp :=
  if shown (a_time ann) time then markAnnotation canvas ann else [].

(** [redrawCanvas]: [None] when it returns before touching the canvas (no
    canvas element, or no 2d context), otherwise the calls it makes. *)
Definition redrawCanvas (s : App) : option (list CanvasOp) :=
  match canvasRef s with
  | None => None
  | Some canvas =>
      if negb (has2d canvas) then None
      else
        let time := videoTime s in
        Some (clearRect 0 0 (cv_width canvas) (cv_height canvas)
              :: flat_map (paintDrawing canvas time) (drawings (data s))
              ++ flat_map (paintAnnotation canvas time) (annotations (data s)))
  end.

(** ** Pointer handlers (App.tsx 189-270) *)

(** The body of the prompt callback (App.tsx 203-227), run with the two
    identifiers [generateId] draws. *)
Definition addPointAndClip (pos : Point) (color : string) (text : string)
    (annId clipId : string) (s : App) : App :=
  let time := videoTime s in
  let newAnn :=
    {| a_id := annId; a_time := time; a_x := x pos; a_y := y pos;
       a_text := text; a_color := color |} in
  let s1 := setAnnotations (annotations (data s) ++ [newAnn]) s in
  let newClip :=
    {| c_id := clipId; c_name := text; startTime := time;
       endTime := Math_min (time + 2)
                    (match videoRef (playback s1) with
                     | Some v => or_else (duration v) (time + 2)
                     | None => time + 2
                     end);
       c_duration := 2; speed := 0.5 |} in
  setClips (clips (data s1) ++ [newClip]) s1.

Definition handleStartInteraction (e : PointerEvent) (s : App) : App :=
  match videoSrc (files s) with
  | None => s
  | Some _ =>
    if isClipPlaying (playback s) then s
    else if ToolMode_eqb (currentMode (tools s)) none then s
    else
      match canvasRef s with
      | None => s
      | Some canvas =>
        match getNormalizedPos e canvas with
        | None => s      (* the TypeError leaves the handler *)
        | Some pos =>
          match currentMode (tools s) with
          | point =>
              showPrompt "Nome do ponto / Clip:"
                (AddPointAndClip pos (brushColor (tools s)))
                ("Ponto " ++ show_nat (List.length (annotations (data s)) + 1)%nat) s
          | pen => setCurrentPath [pos] (setIsDrawing true s)
          | none => s
          end
        end
      end
  end.

(** The live stroke it also paints goes to the canvas only: no state. *)
Definition handleMoveInteraction (e : PointerEvent) (s : App) : App :=
  if negb (isDrawing (tools s)) then s
  else if negb (ToolMode_eqb (currentMode (tools s)) pen) then s
  else
    match canvasRef s with
    | None => s
    | Some canvas =>
      match getNormalizedPos e canvas with
      | None => s
      | Some pos => setCurrentPath (currentPathRef (tools s) ++ [pos]) s
      end
    end.

(** [handleEndInteraction] (App.tsx 253-270), with the render that follows
    it.  The length test runs in the handler.  The path object is built
    inside the updater handed to [setDrawings]; [setIsDrawing(false)] has
    queued an update before it, so React runs the updater at that render,
    once the handler has emptied [currentPathRef.current]: the two refs are
    read then, the brush is the one of the handler's render. *)
Definition handleEndInteraction (newId : string) (s : App) : App :=
  if isDrawing (tools s) && ToolMode_eqb (currentMode (tools s)) pen then
    let s1 := setIsDrawing false s in
    let queued := Nat.ltb 1 (List.length (currentPathRef (tools s1))) in
    let s2 := setCurrentPath [] s1 in
    if queued then
      setDrawings
        (drawings (data s2) ++
         [{| d_id := newId; d_time := videoTime s2;
             d_points := currentPathRef (tools s2);
             d_color := brushColor (tools s1);
             d_size := brushSize (tools s1) |}]) s2
    else s2
  else s.

(** [Modal]'s [handleConfirm] followed by the [onConfirm] the modal holds. *)
Definition Modal_handleConfirm (inputValue annId clipId : string) (s : App) : App :=
  let m := modalConfig s in
  if negb (isOpen m) then s
  else
    let val := match m_type m with input => Some inputValue | _ => None end in
    match onConfirm m with
    | Noop => s
    | CloseModal => closeModal s
    | PromptThen (AddPointAndClip pos color) =>
        let s1 :=
          match val with
          | Some v => if str_truthy v then addPointAndClip pos color v annId clipId s else s
          | None => s
          end in
        closeModal s1
    end.

(** ** Playback logic (App.tsx 274-335) *)

Definition togglePlay (s : App) : App :=
  match videoRef (playback s) with
  | None => s
  | Some v =>
      if paused v then setIsPlaying true (setVideo (Some (video_play v)) s)
      else setIsPlaying false (setVideo (Some (video_pause v)) s)
  end.

Definition playClip (clip : Clip) (s : App) : App :=
  match videoRef (playback s) with
  | None => s
  | Some v =>
      (* Save state if not already in a clip *)
      let s1 :=
        if negb (isClipPlaying (playback s)) then
          setVideoStateBeforeClip
            {| sv_time := currentTime v; wasPlaying := negb (paused v) |} s
        else s in
      let s2 := setIsClipPlaying true s1 in
      let s3 := setActiveClipId (Some (c_id clip)) s2 in
      setVideo
        (Some (video_play
                 (video_rate (speed clip)
                    (video_seek (startTime clip) (video_pause v))))) s3
  end.

(** The [stopClip] of a render whose [playbackSpeed] was [speed]: the
    closure holds that value, and reads the refs when it runs.
    [clipTimeoutRef] is never assigned: its [clearTimeout] never runs. *)
Definition stopClipFrom (speed : number) (resume : bool) (s : App) : App :=
  match videoRef (playback s) with
  | None => s
  | Some v =>
      let v1 := video_rate speed (video_pause v) in
      let s1 := setVideo (Some v1) s in
      let s2 :=
        if resume then
          let saved := videoStateBeforeClip (playback s1) in
          let v2 := video_seek (sv_time saved) v1 in
          if wasPlaying saved then
            setIsPlaying true (setVideo (Some (video_play v2)) s1)
          else
            setIsPlaying false (setVideo (Some v2) s1)
        else s1 in
      setActiveClipId None (setIsClipPlaying false s2)
  end.

(** [stopClip] called from a button: the closure of the latest render. *)
Definition stopClip (resume : bool) (s : App) : App :=
  stopClipFrom (playbackSpeed (playback s)) resume s.

Definition setPlaybackSpeed (r : number) (s : App) : App :=
  let p := playback s in
  setPlayback {| videoRef := videoRef p; isPlaying := isPlaying p;
                 playbackSpeed := r; isClipPlaying := isClipPlaying p;
                 activeClipId := activeClipId p;
                 videoStateBeforeClip := videoStateBeforeClip p |} s.

Definition handleSpeedChange (r : number) (s : App) : App :=
  let s1 := setPlaybackSpeed r s in
  match videoRef (playback s1) with
  | Some v =>
      if negb (isClipPlaying (playback s1)) then setVideo (Some (video_rate r v)) s1
      else s1
  | None => s1
  end.

(** [a >= b] on numbers. *)
Definition geb (a b : number) : bool := b <=? a.

(** [clips.find(c => c.id === activeClipId)] *)
Definition findClip (id : string) (cs : list Clip) : option Clip :=
  find (fun c => String.eqb (c_id c) id) cs.

(** One frame of the sync loop (App.tsx 170-181), without the mirror
    [setCurrentTime] that only feeds the time display.  The effect is
    created again only when [isClipPlaying], [activeClipId] or [clips]
    change, so these three are the latest ones, while the [stopClip] the
    loop calls is the one of the render the effect was created in:
    [closureSpeed] is the [playbackSpeed] of that render. *)
Definition syncLoop (closureSpeed : number) (s : App) : App :=
  match videoRef (playback s) with
  | None => s
  | Some v =>
      match isClipPlaying (playback s), activeClipId (playback s) with
      | true, Some id =>
          if str_truthy id then
            match findClip id (clips (data s)) with
            | Some clip =>
                if geb (currentTime v) (endTime clip)
                then stopClipFrom closureSpeed true s
                else s
            | None => s
            end
          else s
      | _, _ => s
      end
  end.

(** Environment: while the element is not paused its position moves. *)
Definition videoAdvance (t : number) (s : App) : App :=
  match videoRef (playback s) with
  | Some v => if paused v then s else setVideo (Some (video_seek t v)) s
  | None => s
  end.

(** ** File logic (App.tsx 378-408) *)

Definition msgInvalidZip : string := "Arquivo ZIP inválido.".
Definition msgCorrupt : string := "Arquivo de dados corrompido.".
Definition msgNoVideo : string := "Vídeo principal não encontrado no arquivo.".
Definition msgLoaded : string := "Análise carregada com sucesso!".

(** [data.notes || ''] *)
Definition notes_or_empty (v : option string) : string :=
  match v with
  | Some n => if str_truthy n then n else ""
  | None => ""
  end.

(** [data.xs || []]: an array, even an empty one, is truthy. *)
Definition array_or_empty {A : Type} (v : option (list A)) : list A :=
  match v with
  | Some l => l
  | None => []
  end.

(** [data.primaryVideoFileName && zip.file(data.primaryVideoFileName)]: the
    entry of the named video, when the name is there, not empty, and the zip
    has an entry of that name. *)
Definition videoEntry (d : ParsedData) (zip : Zip) : option (string * ZipEntry) :=
  match p_primaryVideoFileName d with
  | Some name =>
      if str_truthy name then
        match zip_file name zip with
        | Some entry => Some (name, entry)
        | None => None
        end
      else None
  | None => None
  end.

(** The [try] block once [JSON.parse] has returned [data]. *)
Definition applyAnalysisData (d : ParsedData) (zip : Zip) (s : App) : App :=
  let s1 := setNotes (notes_or_empty (p_notes d)) s in
  let s2 := setDrawings (array_or_empty (p_drawings d)) s1 in
  let s3 := setAnnotations (array_or_empty (p_annotations d)) s2 in
  let s4 := setClips (array_or_empty (p_clips d)) s3 in
  let s5 := setVideoFileName (p_primaryVideoFileName d) s4 in
  (* Load Video from Zip *)
  match videoEntry d zip with
  | Some (name, entry) =>
      let blob := as_blob entry in
      let vidFile := {| file_name := name; file_type := blob_type blob;
                        file_data := blob_data blob |} in
      showAlert msgLoaded
        (setVideoSrc (Some (createObjectURL vidFile))
           (setOriginalVideoFile (Some vidFile) s5))
  | None => showAlert msgNoVideo s5
  end.

(** [handleLoadAnalysis], with the promise chain run to its end.  [file] is
    [e.target.files?.[0]] and [jszip] says whether [window.JSZip] is there.
    A zip without the entry "analysis_data.json" makes the first [then]
    callback throw, which the outer [catch] reports. *)
Definition handleLoadAnalysis (file : option ArchiveFile) (jszip : bool) (s : App) : App :=
  match file with
  | None => s
  | Some f =>
      if negb jszip then s
      else
        match f with
        | NotAZip => showAlert msgInvalidZip s
        | ZipFile zip =>
            match zip_file "analysis_data.json" zip with
            | None => showAlert msgInvalidZip s
            | Some entry =>
                match as_json entry with
                | Malformed => showAlert msgCorrupt s
                | JsonNull => showAlert msgCorrupt s
                | JsonObject d => applyAnalysisData d zip s
                end
            end
        end
  end.

(** What the user is told: the message of the modal, when it is open as an
    alert. *)
Definition reported (s : App) : option string :=
  let m := modalConfig s in
  if isOpen m then
    match m_type m with
    | alert => message m
    | _ => None
    end
  else None.

(** ** The delete button of a clip row (App.tsx 597-600) *)

Definition deleteClip (clip : Clip) (s : App) : App :=
  let s1 := setClips (filter (fun c => str_neq (c_id c) (c_id clip)) (clips (data s))) s in
  setAnnotations
    (filter (fun a => str_neq (a_text a) (c_name clip)) (annotations (data s))) s1.

(** ** Events *)

Inductive Event :=
| Advance (t : number)                                   (* the video plays on *)
| Frame (closureSpeed : number)                          (* requestAnimationFrame *)
| PointerDown (e : PointerEvent)
| PointerMove (e : PointerEvent)
| PointerUp (newId : string)
| ModalConfirm (inputValue annId clipId : string)
| PlayClip (c : Clip)
| StopClip
| DeleteClip (c : Clip).

Definition step (s : App) (ev : Event) : App :=
  match ev with
  | Advance t => videoAdvance t s
  | Frame closureSpeed => syncLoop closureSpeed s
  | PointerDown e => handleStartInteraction e s
  | PointerMove e => handleMoveInteraction e s
  | PointerUp newId => handleEndInteraction newId s
  | ModalConfirm v i1 i2 => Modal_handleConfirm v i1 i2 s
  | PlayClip c => playClip c s
  | StopClip => stopClip true s
  | DeleteClip c => deleteClip c s
  end.

Definition run (evs : list Event) (s : App) : App := fold_left step evs s.

(** *** Classes of events *)

(** What happens by itself while a clip plays. *)
Definition isPlayback (ev : Event) : bool :=
  match ev with Advance _ | Frame _ => true | _ => false end.

(** Clip plays stacked on one another, with no stop between them. *)
Definition isPlayOrAdvance (ev : Event) : bool :=
  match ev with Advance _ | PlayClip _ => true | _ => false end.

(** What happens while the prompt is open: the video may play on. *)
Definition isWaiting (ev : Event) : bool :=
  match ev with Advance _ => true | _ => false end.

(** What happens between the press and the release of a pen stroke. *)
Definition isStrokeBody (ev : Event) : bool :=
  match ev with Advance _ | PointerMove _ => true | _ => false end.

(** The positions the moves of a stroke record on [canvas]. *)
Definition strokePoints (canvas : Canvas) (body : list Event) : list Point :=
  flat_map (fun ev =>
              match ev with
              | PointerMove e =>
                  match getNormalizedPos e canvas with
                  | Some p => [p]
                  | None => []
                  end
              | _ => []
              end) body.

(** ** Invariants of the event traces *)

(** The saved state and the presence of the element, as an invariant. *)
Definition holds (sv : SavedState) (s : App) : Prop :=
  videoStateBeforeClip (playback s) = sv /\ videoRef (playback s) <> None.

(** Inside a clip, with the saved state [sv]. *)
Definition stacked (sv : SavedState) (s : App) : Prop :=
  holds sv s /\ isClipPlaying (playback s) = true.

(** While a stroke is under way: drawing, in pen mode, over [canvas], with
    [pts] recorded so far and the data and the brush of [s0]. *)
Definition stroking (s0 : App) (canvas : Canvas) (pts : list Point) (s : App) : Prop :=
  isDrawing (tools s) = true
  /\ currentMode (tools s) = pen
  /\ canvasRef s = Some canvas
  /\ currentPathRef (tools s) = pts
  /\ data s = data s0
  /\ brushColor (tools s) = brushColor (tools s0)
  /\ brushSize (tools s) = brushSize (tools s0).

(** ** Sample sessions *)

Module Sample.

Definition canvas : Canvas :=
  {| getBoundingClientRect := {| left := 10; top := 20; width := 640; height := 360 |};
     cv_width := 640; cv_height := 360; has2d := true;
     measureText_width := fun _ => 48 |}.

Definition file : File :=
  {| file_name := "wave.mp4"; file_type := "video/mp4"; file_data := "" |}.

(** A session with a video mounted at position [t], of duration [D]. *)
Definition session (mode : ToolMode) (t D : number) (isPaused : bool) : App :=
  {| playback := {| videoRef := Some {| currentTime := t; duration := D;
                                        paused := isPaused; playbackRate := 1 |};
                    isPlaying := negb isPaused; playbackSpeed := 1;
                    isClipPlaying := false; activeClipId := None;
                    videoStateBeforeClip := {| sv_time := 0; wasPlaying := false |} |};
     canvasRef := Some canvas;
     tools := {| currentMode := mode; brushColor := "#00ff00"; brushSize := 5;
                 isDrawing := false; currentPathRef := [] |};
     data := {| notes := ""; drawings := []; annotations := []; clips := [] |};
     files := {| videoSrc := Some (createObjectURL file);
                 videoFileName := Some "wave.mp4";
                 originalVideoFile := Some file |};
     modalConfig := initialModal |}.

Definition bottomTurn : Clip :=
  {| c_id := "c1"; c_name := "Bottom Turn"; startTime := 9; endTime := 10;
     c_duration := 2; speed := 0.5 |}.

Definition cutback : Clip :=
  {| c_id := "c2"; c_name := "Cutback"; startTime := 4; endTime := 6;
     c_duration := 2; speed := 0.5 |}.

Definition ann (id : string) (t : number) (text : string) : Annotation :=
  {| a_id := id; a_time := t; a_x := 0.5; a_y := 0.5; a_text := text;
     a_color := "#00ff00" |}.

Definition path (id : string) (t : number) : DrawingPath :=
  {| d_id := id; d_time := t;
     d_points := [ {| x := 0.25; y := 0.25 |}; {| x := 0.5; y := 0.75 |} ];
     d_color := "#ff0000"; d_size := 3 |}.

(** A session holding two clips, three annotations (two of them named
    like the first clip) and one drawing. *)
Definition annotated : App :=
  setData {| notes := "take 3";
             drawings := [path "p1" 1];
             annotations := [ann "a1" 9 "Bottom Turn"; ann "a2" 4 "Cutback";
                             ann "a3" 7 "Bottom Turn"];
             clips := [bottomTurn; cutback] |}
          (session none 2 10 true).

Definition emptyRecord : ParsedData :=
  {| p_notes := None; p_drawings := None; p_annotations := None;
     p_clips := None; p_primaryVideoFileName := None |}.

Definition textEntry (j : JsonText) : ZipEntry :=
  {| as_json := j; as_blob := {| blob_type := ""; blob_data := "" |} |}.

(** An archive whose record names a video the archive does not hold. *)
Definition withoutVideo : Zip :=
  [("analysis_data.json",
    textEntry (JsonObject {| p_notes := Some "take 3";
                             p_drawings := None;
                             p_annotations := Some [ann "a1" 9 "Bottom Turn"];
                             p_clips := Some [bottomTurn];
                             p_primaryVideoFileName := Some "wave.mp4" |}))].

(** The state the archive input is offered in: no video chosen. *)
Definition blank : App := initialApp.

End Sample.

(** * The rest of the component *)

(** ** Transport controls *)

(** The play button of a clip row (App.tsx 589):
    [isClipPlaying && activeClipId === clip.id ? stopClip(true) : playClip(clip)]. *)
Definition clipRowButton (clip : Clip) (s : App) : App :=
  if isClipPlaying (playback s)
     && match activeClipId (playback s) with
        | Some id => String.eqb id (c_id clip)
        | None => false
        end
  then stopClip true s
  else playClip clip s.

(** The main button of [VideoControls] (line 55 of the controls file):
    [onClick={isClipPlaying ? onStopClip : onPlayPause}]. *)
Definition transportButton (s : App) : App :=
  if isClipPlaying (playback s) then stopClip true s else togglePlay s.

Inductive Control :=
| PressTransport
| PressClipRow (c : Clip)
| SpeedChange (r : number)       (* handleSpeedChange *)
| TogglePlay
| Play (c : Clip)                (* playClip *)
| Stop                           (* stopClip(true) *)
| Tick (t : number)              (* the video plays on *)
| LoopFrame (closureSpeed : number).   (* one frame of the sync loop *)

Definition control (s : App) (c : Control) : App :=
  match c with
  | PressTransport => transportButton s
  | PressClipRow clip => clipRowButton clip s
  | SpeedChange r => handleSpeedChange r s
  | TogglePlay => togglePlay s
  | Play clip => playClip clip s
  | Stop => stopClip true s
  | Tick t => videoAdvance t s
  | LoopFrame closureSpeed => syncLoop closureSpeed s
  end.

Definition runControls (cs : list Control) (s : App) : App := fold_left control cs s.

Definition isTick (c : Control) : bool :=
  match c with Tick _ => true | _ => false end.

Definition isSpeedOrTick (c : Control) : bool :=
  match c with SpeedChange _ | Tick _ => true | _ => false end.

(** The speed that is selected after the controls [cs], from [r0]. *)
Definition selectedSpeed (cs : list Control) (r0 : number) : number :=
  fold_left (fun r c => match c with SpeedChange r' => r' | _ => r end) cs r0.

(** The speed select of [VideoControls] (lines 75-79 of the controls file):
    [disabled={isClipPlaying}], and [handleSpeedChange] on change. *)
Definition speedSelect (r : number) (s : App) : App :=
  if isClipPlaying (playback s) then s else handleSpeedChange r s.

(** What the user and the browser do to the transport. *)
Inductive Gesture :=
| TapTransport                   (* the main button *)
| TapClipRow (c : Clip)          (* the play button of a clip row *)
| PickSpeed (r : number)         (* the speed select *)
| Plays (t : number)             (* the video plays on *)
| Renders.                       (* one frame of the sync loop *)

(** The component together with the closure its sync loop runs:
    [loopSpeed] is the [playbackSpeed] of the render in which the effect of
    the loop was created last. *)
Record Session := mkSession { app : App; loopSpeed : number }.

(** Has [isClipPlaying] or [activeClipId] changed?  They are two of the
    three dependencies of the effect; the third, [clips], is written by no
    gesture. *)
Definition loopDepsChanged (before after : App) : bool :=
  negb (Bool.eqb (isClipPlaying (playback before)) (isClipPlaying (playback after))
        && match activeClipId (playback before), activeClipId (playback after) with
           | Some a, Some b => String.eqb a b
           | None, None => true
           | _, _ => false
           end).

(** A gesture and the render that follows it: when a dependency has
    changed the effect is created again and the loop holds the
    [playbackSpeed] of that render. *)
Definition gesture (ss : Session) (g : Gesture) : Session :=
  let s := app ss in
  let s' :=
    match g with
    | TapTransport => transportButton s
    | TapClipRow clip => clipRowButton clip s
    | PickSpeed r => speedSelect r s
    | Plays t => videoAdvance t s
    | Renders => syncLoop (loopSpeed ss) s
    end in
  {| app := s';
     loopSpeed := if loopDepsChanged s s' then playbackSpeed (playback s')
                  else loopSpeed ss |}.

Definition runGestures (gs : list Gesture) (ss : Session) : Session :=
  fold_left gesture gs ss.

(** Outside a clip the play/pause flag of the component and the selected
    speed are those of the element. *)
Definition transportAgrees (s : App) : Prop :=
  match videoRef (playback s) with
  | Some v =>
      isClipPlaying (playback s) = false ->
      isPlaying (playback s) = negb (paused v)
      /\ playbackRate v = playbackSpeed (playback s)
  | None => True
  end.

(** In clip mode, with an active clip that the clip list does not hold. *)
Definition adrift (id : string) (s : App) : Prop :=
  isClipPlaying (playback s) = true
  /\ activeClipId (playback s) = Some id
  /\ findClip id (clips (data s)) = None.

(** The transport agrees with the element, and during a clip the loop
    holds the speed that is selected. *)
Definition sessionAgrees (ss : Session) : Prop :=
  transportAgrees (app ss)
  /\ (isClipPlaying (playback (app ss)) = true ->
      loopSpeed ss = playbackSpeed (playback (app ss))).

(** ** The modal, continued (Modal.tsx 12-18, 32) *)

(** The text the input of the modal starts with: the effect on
    [config.isOpen] and [config.defaultValue]. *)
Definition Modal_inputValue (m : ModalConfig) : string :=
  if isOpen m then
    match defaultValue m with
    | Some d => if str_truthy d then d else ""
    | None => ""
    end
  else "".

(** The close and the cancel buttons: [config.onCancel], called with no
    argument. *)
Definition Modal_handleCancel (s : App) : App :=
  let m := modalConfig s in
  if negb (isOpen m) then s
  else
    match onCancel m with
    | Noop => s
    | CloseModal => closeModal s
    | PromptThen _ => s    (* not reached: no prompt callback is stored as onCancel *)
    end.

(** Annotating is off: no video chosen, a clip playing, the navigation
    mode, or no canvas. *)
Definition annotationOff (s : App) : Prop :=
  videoSrc (files s) = None
  \/ isClipPlaying (playback s) = true
  \/ currentMode (tools s) = none
  \/ canvasRef s = None.

(** Pointer events on the canvas. *)
Definition isPointer (ev : Event) : bool :=
  match ev with PointerDown _ | PointerMove _ | PointerUp _ => true | _ => false end.

(** ** Upload, clear, save (App.tsx 339-376, 424-430) *)

(** [handleVideoUpload], [file] being [e.target.files?.[0]]. *)
Definition handleVideoUpload (file : option File) (s : App) : App :=
  match file with
  | Some f =>
      let s1 := setVideoSrc (Some (createObjectURL f)) s in
      let s2 := setVideoFileName (Some (file_name f)) s1 in
      let s3 := setOriginalVideoFile (Some f) s2 in
      setNotes "" (setDrawings [] (setAnnotations [] (setClips [] s3)))
  | None => s
  end.

(** The callback [handleNewAnalysis] hands to [showConfirm] (App.tsx
    412-420), without [setCurrentTime(0)], which only feeds the time
    display. *)
Definition newAnalysisConfirmed (s : App) : App :=
  let s1 := setVideoFileName None (setVideoSrc None s) in
  let s2 := setNotes "" (setDrawings [] (setAnnotations [] (setClips [] s1))) in
  setIsPlaying false (setOriginalVideoFile None s2).

(** The callback [handleClearAll] hands to [showConfirm]. *)
Definition clearAllConfirmed (s : App) : App :=
  setDrawings [] (setAnnotations [] (setClips [] s)).

(** [AnalysisData] of types.ts. *)
Record AnalysisData := mkAnalysisData {
  ad_notes : string;
  ad_drawings : list DrawingPath;
  ad_annotations : list Annotation;
  ad_clips : list Clip;
  primaryVideoFileName : string
}.

(** What [zip.file(name, content)] is given: the text
    [JSON.stringify(data, null, 2)], or a file. *)
Inductive ZipContent :=
| JsonOf (d : AnalysisData)
| FileOf (f : File).

(** A zip being written: names and contents, in the order of creation. *)
Definition ZipWriter := list (string * ZipContent).

(** [zip.file(name, content)]: a new entry, or the new content of the entry
    that has this name already. *)
Fixpoint zip_add (name : string) (c : ZipContent) (z : ZipWriter) : ZipWriter :=
  match z with
  | [] => [(name, c)]
  | (n, c0) :: rest =>
      if String.eqb n name then (n, c) :: rest else (n, c0) :: zip_add name c rest
  end.

(** What [window.saveAs] receives: the zip, and the two holes of the
    template [`Analise_${videoFileName}_${date}.zip`]. *)
Record Download := mkDownload {
  dl_zip : ZipWriter;
  dl_videoFileName : option string;
  dl_date : string
}.

Definition msgSaveError : string :=
  "Erro: Bibliotecas de compressão não carregadas ou vídeo não encontrado.".
Definition msgSaved : string := "Análise salva com sucesso!".

(** [videoFileName || 'video.mp4'] *)
Definition name_or_default (v : option string) : string :=
  match v with
  | Some n => if str_truthy n then n else "video.mp4"
  | None => "video.mp4"
  end.

(** [handleSaveAnalysis], with the promise of [generateAsync] run to its
    end.  [jszip] and [saveAs] say whether [window.JSZip] and
    [window.saveAs] are there; [date] is
    [new Date().toISOString().slice(0, 10)]. *)
Definition handleSaveAnalysis (jszip saveAs : bool) (date : string) (s : App)
    : App * option Download :=
  if negb jszip || negb saveAs then (showAlert msgSaveError s, None)
  else
    match originalVideoFile (files s) with
    | None => (showAlert msgSaveError s, None)
    | Some file =>
        let d := {| ad_notes := notes (data s);
                    ad_drawings := drawings (data s);
                    ad_annotations := annotations (data s);
                    ad_clips := clips (data s);
                    primaryVideoFileName := name_or_default (videoFileName (files s)) |} in
        let zip := zip_add (primaryVideoFileName d) (FileOf file)
                     (zip_add "analysis_data.json" (JsonOf d) []) in
        (showAlert msgSaved s,
         Some {| dl_zip := zip; dl_videoFileName := videoFileName (files s);
                 dl_date := date |})
    end.

(** *** Reading an archive back

    What the libraries promise of an archive written above, as far as the
    load path looks at it.  JSON writes every string as it is and every
    number that is finite and not [-0] as it is; NaN and the infinities
    become [null] and [-0] becomes [0], which [ParsedData] does not
    represent: records holding such numbers are left out. *)

Definition jsonKeeps (n : number) : bool :=
  is_finite n && negb (is_zero n && get_sign n).

Definition jsonKeepsPoint (p : Point) : bool := jsonKeeps (x p) && jsonKeeps (y p).

Definition jsonKeepsDrawing (d : DrawingPath) : bool :=
  jsonKeeps (d_time d) && forallb jsonKeepsPoint (d_points d) && jsonKeeps (d_size d).

Definition jsonKeepsAnnotation (a : Annotation) : bool :=
  jsonKeeps (a_time a) && jsonKeeps (a_x a) && jsonKeeps (a_y a).

Definition jsonKeepsClip (c : Clip) : bool :=
  jsonKeeps (startTime c) && jsonKeeps (endTime c)
  && jsonKeeps (c_duration c) && jsonKeeps (speed c).

Definition jsonKeepsData (d : AnalysisData) : bool :=
  forallb jsonKeepsDrawing (ad_drawings d)
  && forallb jsonKeepsAnnotation (ad_annotations d)
  && forallb jsonKeepsClip (ad_clips d).

(** The record as [JSON.parse] returns it: all five fields are there. *)
Definition parsedOf (d : AnalysisData) : ParsedData :=
  {| p_notes := Some (ad_notes d);
     p_drawings := Some (ad_drawings d);
     p_annotations := Some (ad_annotations d);
     p_clips := Some (ad_clips d);
     p_primaryVideoFileName := Some (primaryVideoFileName d) |}.

(** An entry read back: the text of a record parses to that record; a file
    comes back with its bytes, whatever type the blob is given and whatever
    [JSON.parse] would make of these bytes. *)
Inductive readsBack : ZipContent -> ZipEntry -> Prop :=
| reads_json (d : AnalysisData) (b : Blob) :
    jsonKeepsData d = true ->
    readsBack (JsonOf d) {| as_json := JsonObject (parsedOf d); as_blob := b |}
| reads_file (f : File) (j : JsonText) (ty : string) :
    readsBack (FileOf f)
      {| as_json := j; as_blob := {| blob_type := ty; blob_data := file_data f |} |}.

(** A zip read back: the same names in the same order, entry by entry. *)
Definition archiveReadsBack (w : ZipWriter) (zip : Zip) : Prop :=
  Forall2 (fun we ze => fst we = fst ze /\ readsBack (snd we) (snd ze)) w zip.

(** ** More sample sessions *)

Module Demo.

(** The clip from 9s to 10s playing over the annotated session. *)
Definition inClip : App := playClip Sample.bottomTurn Sample.annotated.

(** A session whose <video> is not mounted while clip mode is on. *)
Definition strandedClip : App :=
  setVideo None (playClip Sample.bottomTurn Sample.annotated).

(** A video file with some bytes in it. *)
Definition video : File :=
  {| file_name := "wave.mp4"; file_type := "video/mp4"; file_data := "ftypisom" |}.

(** The annotated session, holding that file. *)
Definition recorded : App := setOriginalVideoFile (Some video) Sample.annotated.

(** The archive of the recorded session, as the libraries read it back. *)
Definition archive : Zip :=
  [("analysis_data.json",
    {| as_json := JsonObject {| p_notes := Some "take 3";
                                p_drawings := Some [Sample.path "p1" 1];
                                p_annotations :=
                                  Some [Sample.ann "a1" 9 "Bottom Turn";
                                        Sample.ann "a2" 4 "Cutback";
                                        Sample.ann "a3" 7 "Bottom Turn"];
                                p_clips := Some [Sample.bottomTurn; Sample.cutback];
                                p_primaryVideoFileName := Some "wave.mp4" |};
       as_blob := {| blob_type := ""; blob_data := "" |} |});
   ("wave.mp4",
    {| as_json := Malformed;
       as_blob := {| blob_type := ""; blob_data := "ftypisom" |} |})].

End Demo.

(** * Properties *)

(** ** Numbers *)

Lemma positive_not_falsy (t : number) : (0 <? t) = true -> falsy t = false.
Proof.
  unfold falsy, is_zero, is_nan.
  rewrite FloatAxioms.ltb_spec, !FloatAxioms.eqb_spec.
  change (Prim2SF PrimFloat.zero) with (S754_zero false).
  change (Prim2SF 0) with (S754_zero false).
  destruct (Prim2SF t) as [sg | sg | | sg m e]; cbn; try discriminate.
  - destruct sg; cbn; [discriminate | reflexivity].
  - destruct sg; cbn; [discriminate | intros _].
    change (IntDef.Z.compare e e) with (Z.compare e e).
    change (PosDef.Pos.compare_cont Eq m m) with (Pos.compare_cont Eq m m).
    rewrite Z.compare_refl, Pos.compare_cont_refl. reflexivity.
Qed.

Lemma or_else_position (t : number) : isPosition t -> or_else t 0 = t.
Proof.
  intros [-> | H]; [reflexivity |].
  unfold or_else. rewrite (positive_not_falsy t H). reflexivity.
Qed.

Ltac compare_refl :=
  repeat match goal with
  | |- context [IntDef.Z.compare ?e ?e] =>
      change (IntDef.Z.compare e e) with (Z.compare e e); rewrite Z.compare_refl
  | |- context [PosDef.Pos.compare_cont Eq ?m ?m] =>
      change (PosDef.Pos.compare_cont Eq m m) with (Pos.compare_cont Eq m m);
      rewrite Pos.compare_cont_refl
  end.

Lemma ltb_irrefl (a : number) : (a <? a) = false.
Proof.
  rewrite FloatAxioms.ltb_spec.
  destruct (Prim2SF a) as [sg | sg | | sg m e]; cbn;
    try destruct sg; cbn; compare_refl; reflexivity.
Qed.

Lemma is_nan_eq (a : number) : is_nan a = true -> a = nan.
Proof.
  unfold is_nan. rewrite FloatAxioms.eqb_spec. intros H.
  apply Prim2SF_inj. change (Prim2SF nan) with S754_nan.
  revert H.
  destruct (Prim2SF a) as [sg | sg | | sg m e]; cbn;
    try destruct sg; cbn; compare_refl; cbn; solve [reflexivity | discriminate].
Qed.

Lemma Math_min_idem (a : number) : Math_min a a = a.
Proof.
  unfold Math_min. destruct (is_nan a) eqn:E; cbn.
  - symmetry. now apply is_nan_eq.
  - rewrite ltb_irrefl.
    match goal with |- (if ?c then _ else _) = _ => destruct c end; reflexivity.
Qed.

Lemma float_neq (a b : number) : (a =? b) = false -> is_nan a = false -> a <> b.
Proof.
  intros H Hn ->. unfold is_nan in Hn. rewrite H in Hn. discriminate.
Qed.

(** ** Coordinate normalizer *)

(** C9. For a mouse event at (clientX, clientY) and for a touch event whose
    first touch point is at (clientX, clientY), over any bounding box,
    [getNormalizedPos] returns x = (clientX - left) / width and
    y = (clientY - top) / height: the same formula for both inputs, on the
    first touch only, and with no clamp to the unit interval (the last part
    exhibits a box of positive size and a pointer outside it, normalized
    above 1 and below 0). *)
Theorem getNormalizedPos_ratio :
  (forall canvas clientX clientY,
      let rect := getBoundingClientRect canvas in
      getNormalizedPos (MouseEvent clientX clientY) canvas
      = Some {| x := (clientX - left rect) / width rect;
                y := (clientY - top rect) / height rect |})
  /\ (forall canvas t0 others,
      let rect := getBoundingClientRect canvas in
      getNormalizedPos (TouchEvent (t0 :: others)) canvas
      = Some {| x := (t_clientX t0 - left rect) / width rect;
                y := (t_clientY t0 - top rect) / height rect |})
  /\ (forall canvas clientX clientY others,
      getNormalizedPos
        (TouchEvent ({| t_clientX := clientX; t_clientY := clientY |} :: others)) canvas
      = getNormalizedPos (MouseEvent clientX clientY) canvas)
  /\ (let rect := getBoundingClientRect Sample.canvas in
      (0 <? width rect) = true /\ (0 <? height rect) = true
      /\ exists p, getNormalizedPos (MouseEvent 1290 (-70)) Sample.canvas = Some p
                   /\ x p = 2 /\ y p = -0.25
                   /\ (1 <? x p) = true /\ (y p <? 0) = true).
Proof.
  repeat split; try reflexivity.
  eexists. repeat split; reflexivity.
Qed.

(** ** Deleting a clip *)

Lemma str_neq_true (a b : string) : str_neq a b = true <-> a <> b.
Proof.
  unfold str_neq. destruct (String.eqb_spec a b); cbn; split; congruence.
Qed.

(** C7. Deleting a clip keeps exactly the clips whose id differs from the
    deleted one's and exactly the annotations whose text differs from the
    deleted clip's name, both in their order; so the clip itself is gone,
    every annotation carrying its name is gone however many there are, the
    other annotations stay, and drawings and notes are untouched. *)
Theorem deleteClip_by_id_and_name (clip : Clip) (s : App) :
  let s' := deleteClip clip s in
  (forall c, In c (clips (data s')) <-> In c (clips (data s)) /\ c_id c <> c_id clip)
  /\ ~ In clip (clips (data s'))
  /\ (forall a, In a (annotations (data s'))
                <-> In a (annotations (data s)) /\ a_text a <> c_name clip)
  /\ (forall a, a_text a = c_name clip -> ~ In a (annotations (data s')))
  /\ clips (data s')
     = filter (fun c => negb (String.eqb (c_id c) (c_id clip))) (clips (data s))
  /\ annotations (data s')
     = filter (fun a => negb (String.eqb (a_text a) (c_name clip))) (annotations (data s))
  /\ drawings (data s') = drawings (data s)
  /\ notes (data s') = notes (data s).
Proof.
  cbn.
  assert (Hc : forall c, In c (filter (fun c => str_neq (c_id c) (c_id clip)) (clips (data s)))
                         <-> In c (clips (data s)) /\ c_id c <> c_id clip).
  { intros c. rewrite filter_In, str_neq_true. reflexivity. }
  assert (Ha : forall a, In a (filter (fun a => str_neq (a_text a) (c_name clip))
                                 (annotations (data s)))
                         <-> In a (annotations (data s)) /\ a_text a <> c_name clip).
  { intros a. rewrite filter_In, str_neq_true. reflexivity. }
  split; [exact Hc |].
  split; [intros H; apply Hc in H; destruct H as [_ H]; now apply H |].
  split; [exact Ha |].
  split; [intros a E H; apply Ha in H; destruct H as [_ H]; now apply H |].
  repeat split; reflexivity.
Qed.

(** ** Pen strokes *)

(** C10. When a pen stroke ends with fewer than two recorded points, no
    DrawingPath is added: the data (drawings included) is exactly what it
    was, the in-progress path is emptied and drawing mode is left. *)
Theorem short_stroke_adds_nothing (newId : string) (s : App) :
  isDrawing (tools s) = true ->
  currentMode (tools s) = pen ->
  (List.length (currentPathRef (tools s)) < 2)%nat ->
  let s' := handleEndInteraction newId s in
  drawings (data s') = drawings (data s)
  /\ data s' = data s
  /\ currentPathRef (tools s') = []
  /\ isDrawing (tools s') = false.
Proof.
  intros Hd Hm Hl. unfold handleEndInteraction.
  assert (E : Nat.ltb 1 (List.length (currentPathRef (tools s))) = false)
    by (apply Nat.ltb_ge; lia).
  rewrite Hd, Hm. cbn -[Nat.ltb]. rewrite E. cbn.
  repeat split; reflexivity.
Qed.

(** A press and a release with no move between them, in pen mode. *)
Lemma short_stroke_adds_nothing_witness :
  let s := step (Sample.session pen 3 10 true) (PointerDown (MouseEvent 330 200)) in
  isDrawing (tools s) = true
  /\ currentPathRef (tools s) = [ {| x := 0.5; y := 0.5 |} ]
  /\ drawings (data (handleEndInteraction "d1" s)) = drawings (data s)
  /\ currentPathRef (tools (handleEndInteraction "d1" s)) = [].
Proof.
  cbv zeta.
  split; [reflexivity |]. split; [reflexivity |].
  assert (L : Nat.lt (List.length [ {| x := 0.5; y := 0.5 |} ]) 2%nat)
    by (cbn; unfold Nat.lt; lia).
  destruct (short_stroke_adds_nothing "d1"
              (step (Sample.session pen 3 10 true) (PointerDown (MouseEvent 330 200)))
              eq_refl eq_refl L) as (H1 & _ & H3 & _).
  split; [exact H1 | exact H3].
Defined.

(** ** Clip playback *)

(** What [stopClip(true)] leaves behind when there is a video element. *)
Lemma stopClip_resume (s : App) (v : Video) :
  videoRef (playback s) = Some v ->
  let saved := videoStateBeforeClip (playback s) in
  let s' := stopClip true s in
  videoRef (playback s')
  = Some {| currentTime := sv_time saved; duration := duration v;
            paused := negb (wasPlaying saved);
            playbackRate := playbackSpeed (playback s) |}
  /\ isPlaying (playback s') = wasPlaying saved
  /\ isClipPlaying (playback s') = false
  /\ activeClipId (playback s') = None
  /\ videoStateBeforeClip (playback s') = saved.
Proof.
  intros Hv. unfold stopClip, stopClipFrom. rewrite Hv. cbn.
  destruct (wasPlaying (videoStateBeforeClip (playback s))); cbn;
    repeat split; reflexivity.
Qed.

Lemma holds_stopClip sv speed r s : holds sv s -> holds sv (stopClipFrom speed r s).
Proof.
  intros [Hs Hv]. unfold holds, stopClipFrom.
  destruct (videoRef (playback s)) as [v |] eqn:E; [| now rewrite E].
  destruct r; cbn; [destruct (wasPlaying _) |]; cbn; (split; [exact Hs | discriminate]).
Qed.

Lemma holds_videoAdvance sv t s : holds sv s -> holds sv (videoAdvance t s).
Proof.
  intros [Hs Hv]. unfold holds, videoAdvance.
  destruct (videoRef (playback s)) as [v |] eqn:E; [| now rewrite E].
  destruct (paused v); cbn; [rewrite E |]; (split; [exact Hs | discriminate]).
Qed.

Lemma holds_syncLoop sv speed s : holds sv s -> holds sv (syncLoop speed s).
Proof.
  intros H. unfold syncLoop.
  destruct (videoRef (playback s)); [| exact H].
  destruct (isClipPlaying (playback s)); [| exact H].
  destruct (activeClipId (playback s)) as [id |]; [| exact H].
  destruct (str_truthy id); [| exact H].
  destruct (findClip id (clips (data s))) as [c |]; [| exact H].
  destruct (geb _ _); [now apply holds_stopClip | exact H].
Qed.

Lemma holds_playback sv evs :
  forallb isPlayback evs = true -> forall s, holds sv s -> holds sv (run evs s).
Proof.
  unfold run. induction evs as [| ev evs IH]; cbn; intros Hc s H; [exact H |].
  apply andb_prop in Hc. destruct Hc as [Hev Hevs].
  apply IH; [exact Hevs |].
  destruct ev; try discriminate; cbn.
  - now apply holds_videoAdvance.
  - now apply holds_syncLoop.
Qed.

(** What the first [playClip] saves, from the idle state. *)
Lemma playClip_from_idle (c : Clip) (s : App) (v : Video) :
  videoRef (playback s) = Some v ->
  isClipPlaying (playback s) = false ->
  let s' := playClip c s in
  videoStateBeforeClip (playback s')
  = {| sv_time := currentTime v; wasPlaying := negb (paused v) |}
  /\ isClipPlaying (playback s') = true
  /\ activeClipId (playback s') = Some (c_id c)
  /\ videoRef (playback s')
     = Some {| currentTime := startTime c; duration := duration v;
               paused := false; playbackRate := speed c |}.
Proof.
  intros Hv Hi. unfold playClip. rewrite Hv, Hi. cbn. repeat split; reflexivity.
Qed.

(** C2. From the idle state with the video paused at T0, playing any clip,
    letting the clip play (the position moving, frames of the sync loop
    running, the loop possibly stopping the clip by itself) and then
    stopping with resume leaves the video at T0, paused, in the idle state;
    the clip's start, end and speed are arbitrary. *)
Theorem playClip_stopClip_round_trip (c : Clip) (s : App) (v : Video)
    (T0 : number) (evs : list Event) :
  videoRef (playback s) = Some v ->
  isClipPlaying (playback s) = false ->
  paused v = true ->
  currentTime v = T0 ->
  forallb isPlayback evs = true ->
  let s' := stopClip true (run evs (playClip c s)) in
  exists v',
    videoRef (playback s') = Some v'
    /\ currentTime v' = T0
    /\ paused v' = true
    /\ isPlaying (playback s') = false
    /\ isClipPlaying (playback s') = false
    /\ activeClipId (playback s') = None.
Proof.
  intros Hv Hi Hp Ht Hevs.
  destruct (playClip_from_idle c s v Hv Hi) as (Hsv & _ & _ & Hv1).
  rewrite Hp, Ht in Hsv. cbn in Hsv.
  assert (H : holds {| sv_time := T0; wasPlaying := false |} (run evs (playClip c s))).
  { apply holds_playback; [exact Hevs |]. split; [exact Hsv |].
    rewrite Hv1. discriminate. }
  destruct H as [Hs Hpres].
  destruct (videoRef (playback (run evs (playClip c s)))) as [w |] eqn:Ew;
    [| congruence].
  destruct (stopClip_resume _ w Ew) as (Hr & Hplay & Hclip & Hact & _).
  rewrite Hs in Hr, Hplay. cbn in Hr, Hplay.
  cbv zeta. eexists. split; [exact Hr |]. cbn. repeat split; assumption.
Qed.

(** The clip from 9s to 10s played over a video paused at 2s; the loop sees
    it reach its end, and the stop button is pressed after that. *)
Lemma playClip_stopClip_round_trip_witness :
  exists v',
    videoRef (playback
                (stopClip true
                   (run [Advance 9.5; Frame 1; Advance 10; Frame 1]
                      (playClip Sample.bottomTurn Sample.annotated)))) = Some v'
    /\ currentTime v' = 2 /\ paused v' = true.
Proof.
  destruct (playClip_stopClip_round_trip Sample.bottomTurn Sample.annotated
              {| currentTime := 2; duration := 10; paused := true; playbackRate := 1 |}
              2 [Advance 9.5; Frame 1; Advance 10; Frame 1]
              eq_refl eq_refl eq_refl eq_refl eq_refl)
    as (v' & H1 & H2 & H3 & _).
  exists v'. split; [exact H1 |]. split; [exact H2 | exact H3].
Defined.

Lemma stacked_playClip sv c s : stacked sv s -> stacked sv (playClip c s).
Proof.
  intros [[Hs Hv] Hc]. unfold stacked, holds, playClip.
  destruct (videoRef (playback s)) as [v |] eqn:E; [| congruence].
  rewrite Hc. cbn. repeat split; [exact Hs | discriminate].
Qed.

Lemma stacked_videoAdvance sv t s : stacked sv s -> stacked sv (videoAdvance t s).
Proof.
  intros [H Hc]. split; [now apply holds_videoAdvance |].
  unfold videoAdvance. destruct (videoRef (playback s)) as [v |]; [| exact Hc].
  destruct (paused v); [exact Hc | cbn; exact Hc].
Qed.

Lemma stacked_run sv evs :
  forallb isPlayOrAdvance evs = true ->
  forall s, stacked sv s -> stacked sv (run evs s).
Proof.
  unfold run. induction evs as [| ev evs IH]; cbn; intros Hc s H; [exact H |].
  apply andb_prop in Hc. destruct Hc as [Hev Hevs].
  apply IH; [exact Hevs |].
  destruct ev; try discriminate; cbn.
  - now apply stacked_videoAdvance.
  - now apply stacked_playClip.
Qed.

(** C3. The saved state is written on the idle-to-clip edge only: after a
    first [playClip] from the idle state, any further [playClip] calls with
    no stop between them (the position moving meanwhile) leave the saved
    state at the time and play/pause flag read before the first call, and
    [stopClip(true)] then puts the video back at that time and in that
    play/pause state. *)
Theorem stacked_clips_restore_first (c0 : Clip) (s : App) (v : Video)
    (evs : list Event) :
  videoRef (playback s) = Some v ->
  isClipPlaying (playback s) = false ->
  forallb isPlayOrAdvance evs = true ->
  let s1 := run evs (playClip c0 s) in
  let s' := stopClip true s1 in
  videoStateBeforeClip (playback s1)
  = {| sv_time := currentTime v; wasPlaying := negb (paused v) |}
  /\ exists v',
      videoRef (playback s') = Some v'
      /\ currentTime v' = currentTime v
      /\ paused v' = paused v
      /\ isPlaying (playback s') = negb (paused v)
      /\ isClipPlaying (playback s') = false.
Proof.
  intros Hv Hi Hevs.
  destruct (playClip_from_idle c0 s v Hv Hi) as (Hsv & Hc & _ & Hv1).
  assert (H : stacked {| sv_time := currentTime v; wasPlaying := negb (paused v) |}
                (run evs (playClip c0 s))).
  { apply stacked_run; [exact Hevs |]. repeat split; [exact Hsv | | exact Hc].
    rewrite Hv1. discriminate. }
  destruct H as [[Hs Hpres] _].
  cbv zeta. split; [exact Hs |].
  destruct (videoRef (playback (run evs (playClip c0 s)))) as [w |] eqn:Ew;
    [| congruence].
  destruct (stopClip_resume _ w Ew) as (Hr & Hplay & Hclip & _).
  rewrite Hs in Hr, Hplay. cbn in Hr, Hplay.
  eexists. split; [exact Hr |]. cbn.
  rewrite negb_involutive. repeat split; assumption.
Qed.

(** Two clips played one over the other from a video playing at 3.5s: the
    second play starts at 9.5s, and the stop goes back to 3.5s, playing. *)
Lemma stacked_clips_restore_first_witness :
  let s := Sample.session none 3.5 10 false in
  let evs := [Advance 9.5; PlayClip Sample.cutback; Advance 4.25] in
  (exists w, videoRef (playback (run [Advance 9.5] (playClip Sample.bottomTurn s))) = Some w
             /\ currentTime w = 9.5)
  /\ exists v',
      videoRef (playback (stopClip true (run evs (playClip Sample.bottomTurn s)))) = Some v'
      /\ currentTime v' = 3.5 /\ paused v' = false.
Proof.
  cbv zeta. split; [eexists; split; reflexivity |].
  destruct (stacked_clips_restore_first Sample.bottomTurn
              (Sample.session none 3.5 10 false)
              {| currentTime := 3.5; duration := 10; paused := false; playbackRate := 1 |}
              [Advance 9.5; PlayClip Sample.cutback; Advance 4.25]
              eq_refl eq_refl eq_refl)
    as (_ & v' & H1 & H2 & H3 & _).
  exists v'. split; [exact H1 |]. split; [exact H2 | exact H3].
Defined.

(** ** Render pipeline *)

Lemma shown_filter_In {A : Type} (tm : A -> number) (t : number) (l : list A) (a : A) :
  In a (filter (fun i => shown (tm i) t) l)
  <-> In a l /\ (Math_abs (tm a - t) <? 0.5) = true.
Proof. rewrite filter_In. reflexivity. Qed.

Lemma flat_map_if_filter {A B : Type} (f : A -> bool) (g : A -> list B) (l : list A) :
  flat_map (fun a => if f a then g a else []) l = flat_map g (filter f l).
Proof.
  induction l as [| a l IH]; cbn; [reflexivity |].
  destruct (f a); cbn; now rewrite IH.
Qed.

(** C4. With the canvas and its context there and the video at position t,
    [redrawCanvas] clears the surface and then paints, in their order, the
    drawings and then the annotations it selects, an item being selected if
    and only if [|time - t| < 0.5] (so not when [|time - t|] is 0.5).
    Painting a drawing is: stroke style and line width of the path, round
    caps and joins, [beginPath], [moveTo] its first point and [lineTo] each
    other one, scaled to the canvas, then [stroke]. Painting an annotation
    is: a filled circle of radius 8 in its colour with a white outline of
    width 2, then the label box and the text under it. *)
Theorem redrawCanvas_within_half_second (s : App) (canvas : Canvas) (v : Video)
    (t : number) :
  canvasRef s = Some canvas ->
  has2d canvas = true ->
  videoRef (playback s) = Some v ->
  currentTime v = t ->
  isPosition t ->
  let ds := filter (fun d => Math_abs (d_time d - t) <? 0.5) (drawings (data s)) in
  let anns := filter (fun a => Math_abs (a_time a - t) <? 0.5) (annotations (data s)) in
  let W := cv_width canvas in
  let H := cv_height canvas in
  redrawCanvas s
  = Some (clearRect 0 0 W H
          :: flat_map
               (fun d =>
                  ([strokeStyle (d_color d); lineWidth (d_size d);
                    lineCap "round"; lineJoin "round"; beginPath]
                   ++ match d_points d with
                      | [] => []
                      | p :: rest =>
                          moveTo (x p * W) (y p * H)
                          :: map (fun q => lineTo (x q * W) (y q * H)) rest
                      end
                   ++ [stroke])%list) ds
          ++ flat_map
               (fun a =>
                  let px := a_x a * W in
                  let py := a_y a * H in
                  let textWidth := measureText_width canvas (a_text a) in
                  [beginPath; arc px py 8 0 (2 * 0x1.921fb54442d18p+1);
                   fillStyle (a_color a); fill;
                   strokeStyle "white"; lineWidth 2; stroke;
                   font "12px sans-serif"; fillStyle "rgba(0,0,0,0.8)";
                   fillRect (px - textWidth / 2 - 4) (py + 12) (textWidth + 8) 20;
                   fillStyle "white"; textAlign "center";
                   fillText (a_text a) px (py + 26)]) anns)
  /\ (forall d, In d ds
                <-> In d (drawings (data s))
                    /\ (Math_abs (d_time d - t) <? 0.5) = true)
  /\ (forall a, In a anns
                <-> In a (annotations (data s))
                    /\ (Math_abs (a_time a - t) <? 0.5) = true)
  /\ (forall d, Math_abs (d_time d - t) = 0.5 -> ~ In d ds)
  /\ (forall a, Math_abs (a_time a - t) = 0.5 -> ~ In a anns).
Proof.
  intros Hc Hctx Hv Ht Hpos. cbv zeta.
  assert (Htime : videoTime s = t).
  { unfold videoTime. rewrite Hv, Ht. now apply or_else_position. }
  split.
  { unfold redrawCanvas. rewrite Hc, Hctx, Htime. cbn [negb].
    unfold paintDrawing, paintAnnotation.
    rewrite !flat_map_if_filter. reflexivity. }
  split; [intros d; apply (shown_filter_In d_time) |].
  split; [intros a; apply (shown_filter_In a_time) |].
  split.
  - intros d E H. apply (shown_filter_In d_time) in H. destruct H as [_ H].
    rewrite E in H. discriminate.
  - intros a E H. apply (shown_filter_In a_time) in H. destruct H as [_ H].
    rewrite E in H. discriminate.
Qed.

(** At 9.5s, of a drawing at 9.25s and annotations at 9s, 9.25s and 10s: the
    drawing and the annotation at 9.25s are painted, the two annotations at
    distance 0.5 are not. *)
Lemma redrawCanvas_within_half_second_witness :
  let s := setDrawings [Sample.path "p1" 9.25]
             (setAnnotations [Sample.ann "a1" 9 "A"; Sample.ann "a2" 9.25 "B";
                              Sample.ann "a3" 10 "C"]
                (Sample.session none 9.5 12 true)) in
  redrawCanvas s
  = Some [clearRect 0 0 640 360;
          strokeStyle "#ff0000"; lineWidth 3; lineCap "round"; lineJoin "round";
          beginPath; moveTo 160 90; lineTo 320 270; stroke;
          beginPath; arc 320 180 8 0 0x1.921fb54442d18p+2; fillStyle "#00ff00"; fill;
          strokeStyle "white"; lineWidth 2; stroke;
          font "12px sans-serif"; fillStyle "rgba(0,0,0,0.8)";
          fillRect 292 192 56 20;
          fillStyle "white"; textAlign "center"; fillText "B" 320 206]
  /\ ~ In (Sample.ann "a1" 9 "A")
         (filter (fun a => Math_abs (a_time a - 9.5) <? 0.5) (annotations (data s)))
  /\ ~ In (Sample.ann "a3" 10 "C")
         (filter (fun a => Math_abs (a_time a - 9.5) <? 0.5) (annotations (data s))).
Proof.
  cbv zeta.
  destruct (redrawCanvas_within_half_second
              (setDrawings [Sample.path "p1" 9.25]
                 (setAnnotations [Sample.ann "a1" 9 "A"; Sample.ann "a2" 9.25 "B";
                                  Sample.ann "a3" 10 "C"]
                    (Sample.session none 9.5 12 true)))
              Sample.canvas
              {| currentTime := 9.5; duration := 12; paused := true; playbackRate := 1 |}
              9.5 eq_refl eq_refl eq_refl eq_refl (or_intror eq_refl))
    as (H & _ & _ & _ & Hb).
  split; [rewrite H; reflexivity |].
  split; apply Hb; reflexivity.
Defined.

(** ** Pen strokes, continued *)

Lemma stroking_step s0 canvas pts s ev :
  isStrokeBody ev = true ->
  stroking s0 canvas pts s ->
  stroking s0 canvas (pts ++ strokePoints canvas [ev]) (step s ev).
Proof.
  intros Hev (Hd & Hm & Hc & Hp & Hdata & Hcol & Hsz).
  destruct ev; try discriminate; cbn.
  - (* the position moves *)
    rewrite app_nil_r. unfold videoAdvance.
    destruct (videoRef (playback s)) as [v |]; [destruct (paused v) |];
      cbn; repeat split; assumption.
  - (* a move *)
    unfold handleMoveInteraction. rewrite Hd, Hm, Hc. cbn.
    destruct (getNormalizedPos e canvas) as [p |]; cbn.
    + rewrite Hp. repeat split; assumption.
    + rewrite app_nil_r. repeat split; assumption.
Qed.

Lemma strokePoints_cons canvas ev body :
  strokePoints canvas (ev :: body)
  = (strokePoints canvas [ev] ++ strokePoints canvas body)%list.
Proof. unfold strokePoints. cbn. now rewrite app_nil_r. Qed.

Lemma stroking_run s0 canvas body :
  forallb isStrokeBody body = true ->
  forall pts s, stroking s0 canvas pts s ->
  stroking s0 canvas (pts ++ strokePoints canvas body) (run body s).
Proof.
  unfold run. induction body as [| ev body IH]; intros Hb pts s H.
  - cbn. now rewrite app_nil_r.
  - cbn [forallb] in Hb. apply andb_prop in Hb. destruct Hb as [Hev Hb].
    cbn [fold_left]. rewrite strokePoints_cons, app_assoc.
    apply IH; [exact Hb |]. now apply stroking_step.
Qed.

Lemma stroking_press s canvas e0 p0 :
  videoSrc (files s) <> None ->
  isClipPlaying (playback s) = false ->
  currentMode (tools s) = pen ->
  canvasRef s = Some canvas ->
  getNormalizedPos e0 canvas = Some p0 ->
  stroking s canvas [p0] (step s (PointerDown e0)).
Proof.
  intros Hsrc Hclip Hm Hc Hp. cbn. unfold handleStartInteraction.
  destruct (videoSrc (files s)); [| congruence].
  rewrite Hclip, Hm, Hc, Hp. unfold stroking. cbn.
  repeat split; assumption || reflexivity.
Qed.

Lemma forallb_app_l {A : Type} (f : A -> bool) (l1 l2 : list A) :
  forallb f (l1 ++ l2) = true -> forallb f l1 = true.
Proof. rewrite forallb_app. intros H. now apply andb_prop in H. Qed.

(** C5, on the code. A pen stroke that recorded at least two points adds
    its DrawingPath in one append, on release, and until the release the
    data is what it was before the press; but the path that is appended
    holds no point at all. The updater that copies
    [currentPathRef.current] runs once the handler has emptied it, so the
    recorded sequence [p0 :: strokePoints canvas body] is lost; the [time]
    of the path is the video position read at the release, not the one at
    the start of the stroke. *)
Theorem pen_stroke_loses_points (s : App) (canvas : Canvas)
    (e0 : PointerEvent) (p0 : Point) (body : list Event) (newId : string) :
  videoSrc (files s) <> None ->
  isClipPlaying (playback s) = false ->
  currentMode (tools s) = pen ->
  canvasRef s = Some canvas ->
  getNormalizedPos e0 canvas = Some p0 ->
  forallb isStrokeBody body = true ->
  strokePoints canvas body <> [] ->
  let s1 := run (PointerDown e0 :: body) s in
  let s' := step s1 (PointerUp newId) in
  (forall pre post, body = (pre ++ post)%list ->
                    data (run (PointerDown e0 :: pre) s) = data s)
  /\ currentPathRef (tools s1) = p0 :: strokePoints canvas body
  /\ drawings (data s')
     = (drawings (data s)
        ++ [ {| d_id := newId; d_time := videoTime s1;
                d_points := [];
                d_color := brushColor (tools s);
                d_size := brushSize (tools s) |} ])%list
  /\ notes (data s') = notes (data s)
  /\ annotations (data s') = annotations (data s)
  /\ clips (data s') = clips (data s)
  /\ currentPathRef (tools s') = []
  /\ isDrawing (tools s') = false.
Proof.
  intros Hsrc Hclip Hm Hc Hp Hb Hne.
  pose proof (stroking_press s canvas e0 p0 Hsrc Hclip Hm Hc Hp) as H0.
  cbv zeta. split.
  { intros pre post ->.
    pose proof (stroking_run s canvas pre (forallb_app_l _ _ _ Hb) _ _ H0) as H.
    destruct H as (_ & _ & _ & _ & H & _). exact H. }
  pose proof (stroking_run s canvas body Hb _ _ H0) as H.
  change (run body (step s (PointerDown e0))) with (run (PointerDown e0 :: body) s) in H.
  destruct H as (Hd & Hmode & _ & Hpath & Hdata & Hcol & Hsz).
  split; [exact Hpath |].
  cbn [step]. unfold handleEndInteraction.
  rewrite Hd, Hmode. cbn -[Nat.ltb run]. rewrite Hpath, Hdata, Hcol, Hsz.
  assert (E : Nat.ltb 1 (List.length ([p0] ++ strokePoints canvas body)) = true).
  { apply Nat.ltb_lt. destruct (strokePoints canvas body); [congruence | cbn; lia]. }
  rewrite E. cbn -[run]. unfold videoTime. cbn -[run].
  rewrite ?Hdata. repeat split; reflexivity.
Qed.

(** A stroke of three points drawn over a playing video, pressed at 1s and
    released at 2s: the path that is stored has no point, and time 2. *)
Lemma pen_stroke_loses_points_witness :
  let s := Sample.session pen 1 10 false in
  let body := [PointerMove (MouseEvent 170 110); Advance 2;
               PointerMove (MouseEvent 490 290)] in
  videoTime s = 1
  /\ currentPathRef (tools (run (PointerDown (MouseEvent 330 200) :: body) s))
     = [ {| x := 0.5; y := 0.5 |}; {| x := 0.25; y := 0.25 |};
         {| x := 0.75; y := 0.75 |} ]
  /\ drawings (data (run (PointerDown (MouseEvent 330 200) :: body ++ [PointerUp "d1"]) s))
     = [ {| d_id := "d1"; d_time := 2; d_points := [];
            d_color := "#00ff00"; d_size := 5 |} ].
Proof.
  cbv zeta.
  assert (N : Some (createObjectURL Sample.file) <> None) by discriminate.
  assert (P : strokePoints Sample.canvas
                [PointerMove (MouseEvent 170 110); Advance 2;
                 PointerMove (MouseEvent 490 290)] <> []) by discriminate.
  destruct (pen_stroke_loses_points (Sample.session pen 1 10 false)
              Sample.canvas (MouseEvent 330 200) {| x := 0.5; y := 0.5 |}
              [PointerMove (MouseEvent 170 110); Advance 2;
               PointerMove (MouseEvent 490 290)] "d1"
              N eq_refl eq_refl eq_refl eq_refl eq_refl P)
    as (_ & H1 & H2 & _).
  split; [reflexivity |]. split; [exact H1 | exact H2].
Defined.

(** ** Point annotations and their clips *)

Lemma waiting_run evs :
  forallb isWaiting evs = true ->
  forall s,
    data (run evs s) = data s
    /\ tools (run evs s) = tools s
    /\ modalConfig (run evs s) = modalConfig s.
Proof.
  unfold run. induction evs as [| ev evs IH]; intros Hw s; [cbn; auto |].
  cbn [forallb] in Hw. apply andb_prop in Hw. destruct Hw as [Hev Hw].
  cbn [fold_left]. destruct (IH Hw (step s ev)) as (Hd & Ht & Hmo).
  rewrite Hd, Ht, Hmo.
  destruct ev; try discriminate. cbn. unfold videoAdvance.
  destruct (videoRef (playback s)) as [v |]; [destruct (paused v) |]; cbn; auto.
Qed.

Lemma str_truthy_nonempty (text : string) : text <> "" -> str_truthy text = true.
Proof. destruct text; [congruence | reflexivity]. Qed.

(** C1, as the code has it. Placing a point (a press in point mode, then
    the prompt confirmed with a name that is not empty) while the video is
    at position t with duration D appends exactly one annotation and exactly
    one clip; the clip has duration 2, speed 0.5, startTime t, and its
    endTime is min(t + 2, D) when D is a number other than 0, and t + 2 when
    D is 0 or NaN (no duration known). *)
Theorem point_creates_annotation_and_clip (s : App) (canvas : Canvas)
    (e : PointerEvent) (pos : Point) (waits : list Event) (v : Video)
    (text annId clipId : string) (t D : number) :
  videoSrc (files s) <> None ->
  isClipPlaying (playback s) = false ->
  currentMode (tools s) = point ->
  canvasRef s = Some canvas ->
  getNormalizedPos e canvas = Some pos ->
  forallb isWaiting waits = true ->
  videoRef (playback (run (PointerDown e :: waits) s)) = Some v ->
  currentTime v = t ->
  duration v = D ->
  isPosition t ->
  text <> "" ->
  let s' := run (PointerDown e :: waits ++ [ModalConfirm text annId clipId]) s in
  annotations (data s')
  = (annotations (data s)
     ++ [ {| a_id := annId; a_time := t; a_x := x pos; a_y := y pos;
             a_text := text; a_color := brushColor (tools s) |} ])%list
  /\ clips (data s')
     = (clips (data s)
        ++ [ {| c_id := clipId; c_name := text; startTime := t;
                endTime := if falsy D then t + 2 else Math_min (t + 2) D;
                c_duration := 2; speed := 0.5 |} ])%list
  /\ drawings (data s') = drawings (data s)
  /\ notes (data s') = notes (data s).
Proof.
  intros Hsrc Hclip Hm Hc Hp Hw Hv Ht HD Hpos Htext.
  cbv zeta. unfold run in *. cbn [fold_left] in *.
  rewrite fold_left_app. cbn [fold_left].
  set (s1 := step s (PointerDown e)) in *.
  assert (H1 : data s1 = data s /\ tools s1 = tools s
               /\ modalConfig s1
                  = {| isOpen := true; m_type := input; title := "Nome do ponto / Clip:";
                       message := None;
                       defaultValue :=
                         Some ("Ponto " ++ show_nat (List.length (annotations (data s)) + 1));
                       onConfirm := PromptThen (AddPointAndClip pos (brushColor (tools s)));
                       onCancel := CloseModal |}).
  { subst s1. cbn. unfold handleStartInteraction.
    destruct (videoSrc (files s)); [| congruence].
    rewrite Hclip, Hm, Hc, Hp. cbn. auto. }
  destruct H1 as (Hd1 & Ht1 & Hmo1).
  destruct (waiting_run waits Hw s1) as (Hd2 & Ht2 & Hmo2). unfold run in *.
  set (s2 := fold_left step waits s1) in *.
  assert (Htime : videoTime s2 = t).
  { unfold videoTime. rewrite Hv, Ht. now apply or_else_position. }
  cbn [step]. unfold Modal_handleConfirm. rewrite Hmo2, Hmo1. cbn.
  rewrite (str_truthy_nonempty text Htext). cbn.
  rewrite Hv, Htime, HD, Hd2, Hd1.
  unfold or_else. destruct (falsy D); [rewrite Math_min_idem |];
    repeat split; reflexivity.
Qed.

(** The documented scenario: a video of 10s, a point named "Bottom Turn"
    marked at 9s. *)
Lemma point_creates_annotation_and_clip_witness :
  clips (data (run [PointerDown (MouseEvent 330 200); ModalConfirm "Bottom Turn" "a1" "c1"]
                 (Sample.session point 9 10 true)))
  = [ {| c_id := "c1"; c_name := "Bottom Turn"; startTime := 9; endTime := 10;
         c_duration := 2; speed := 0.5 |} ].
Proof.
  assert (N : Some (createObjectURL Sample.file) <> None) by discriminate.
  assert (T : "Bottom Turn" <> "") by discriminate.
  destruct (point_creates_annotation_and_clip (Sample.session point 9 10 true)
              Sample.canvas (MouseEvent 330 200) {| x := 0.5; y := 0.5 |} []
              {| currentTime := 9; duration := 10; paused := true; playbackRate := 1 |}
              "Bottom Turn" "a1" "c1" 9 10
              N eq_refl eq_refl eq_refl eq_refl eq_refl eq_refl eq_refl eq_refl
              (or_intror eq_refl) T)
    as (_ & H & _).
  exact H.
Defined.

(** C1, as the specification states it, fails where the duration is falsy. On a video
    whose duration reads 0 the clip placed at 1s ends at 3s, and
    min(1 + 2, 0) is 0; on a video whose duration is still NaN (no metadata
    yet) it ends at 3s as well, and min(1 + 2, NaN) is NaN. *)
Lemma point_clip_end_counterexample :
  let evs := [PointerDown (MouseEvent 330 200); ModalConfirm "Bottom Turn" "a1" "c1"] in
  (exists c, clips (data (run evs (Sample.session point 1 0 true))) = [c]
             /\ endTime c = 3
             /\ Math_min (1 + 2) 0 = 0
             /\ endTime c <> Math_min (1 + 2) 0)
  /\ (exists c, clips (data (run evs (Sample.session point 1 nan true))) = [c]
                /\ endTime c = 3
                /\ Math_min (1 + 2) nan = nan
                /\ endTime c <> Math_min (1 + 2) nan).
Proof.
  cbv zeta. split.
  - eexists. split; [reflexivity |]. split; [reflexivity |]. split; [reflexivity |].
    apply float_neq; reflexivity.
  - eexists. split; [reflexivity |]. split; [reflexivity |]. split; [reflexivity |].
    apply float_neq; reflexivity.
Qed.

(** ** Loading an archive *)

(** The state once the data record [d] of [zip] has been applied. *)
Lemma applyAnalysisData_fields (d : ParsedData) (zip : Zip) (s : App) :
  let s' := applyAnalysisData d zip s in
  notes (data s') = notes_or_empty (p_notes d)
  /\ drawings (data s') = array_or_empty (p_drawings d)
  /\ annotations (data s') = array_or_empty (p_annotations d)
  /\ clips (data s') = array_or_empty (p_clips d)
  /\ videoFileName (files s') = p_primaryVideoFileName d.
Proof.
  unfold applyAnalysisData.
  destruct (videoEntry d zip) as [[name entry] |]; cbn; repeat split; reflexivity.
Qed.

Lemma notes_or_empty_spec (v : option string) :
  notes_or_empty v = match v with Some n => n | None => "" end.
Proof. destruct v as [[| c n] |]; reflexivity. Qed.

(** C6, as the code has it. When the data record parses, a missing [notes]
    loads as the empty string and missing [drawings], [annotations] and
    [clips] load as empty collections, while fields that are present load
    as they are; [primaryVideoFileName] gets no default: the file name of
    the state becomes whatever the record holds, nothing when it is
    missing. A name that is missing or empty is handled by the
    video-not-found branch: that alert is raised and no video is
    attached. *)
Theorem load_defaults_missing_fields (s : App) (zip : Zip) (entry : ZipEntry)
    (d : ParsedData) :
  zip_file "analysis_data.json" zip = Some entry ->
  as_json entry = JsonObject d ->
  let s' := handleLoadAnalysis (Some (ZipFile zip)) true s in
  notes (data s') = match p_notes d with Some n => n | None => "" end
  /\ drawings (data s') = match p_drawings d with Some l => l | None => [] end
  /\ annotations (data s') = match p_annotations d with Some l => l | None => [] end
  /\ clips (data s') = match p_clips d with Some l => l | None => [] end
  /\ videoFileName (files s') = p_primaryVideoFileName d
  /\ (p_primaryVideoFileName d = None -> videoFileName (files s') = None)
  /\ (p_primaryVideoFileName d = None \/ p_primaryVideoFileName d = Some "" ->
      reported s' = Some msgNoVideo
      /\ videoSrc (files s') = videoSrc (files s)
      /\ originalVideoFile (files s') = originalVideoFile (files s)).
Proof.
  intros Hz Hj. cbv zeta. unfold handleLoadAnalysis. cbn [negb].
  rewrite Hz, Hj.
  destruct (applyAnalysisData_fields d zip s) as (Hn & Hd & Ha & Hc & Hf).
  rewrite Hn, Hd, Ha, Hc, Hf, notes_or_empty_spec.
  split; [reflexivity |]. split; [reflexivity |]. split; [reflexivity |].
  split; [reflexivity |]. split; [reflexivity |]. split; [auto |].
  intros Hname.
  assert (Hv : videoEntry d zip = None).
  { unfold videoEntry. destruct Hname as [-> | ->]; reflexivity. }
  unfold applyAnalysisData. rewrite Hv. cbn. repeat split; reflexivity.
Qed.

(** A record that holds notes and clips only. *)
Lemma load_defaults_missing_fields_witness :
  let d := {| p_notes := Some "take 3"; p_drawings := None; p_annotations := None;
              p_clips := Some [Sample.bottomTurn]; p_primaryVideoFileName := None |} in
  let s' := handleLoadAnalysis
              (Some (ZipFile [("analysis_data.json", Sample.textEntry (JsonObject d))]))
              true Sample.annotated in
  notes (data s') = "take 3"
  /\ drawings (data s') = []
  /\ annotations (data s') = []
  /\ clips (data s') = [Sample.bottomTurn]
  /\ videoFileName (files s') = None
  /\ reported s' = Some msgNoVideo.
Proof.
  cbv zeta.
  destruct (load_defaults_missing_fields Sample.annotated
              [("analysis_data.json",
                Sample.textEntry
                  (JsonObject {| p_notes := Some "take 3"; p_drawings := None;
                                 p_annotations := None;
                                 p_clips := Some [Sample.bottomTurn];
                                 p_primaryVideoFileName := None |}))]
              _ _ eq_refl eq_refl)
    as (H1 & H2 & H3 & H4 & H5 & _ & H6).
  destruct (H6 (or_introl eq_refl)) as (H7 & _).
  repeat split; assumption.
Defined.

(** C6, as the specification states it, fails on [primaryVideoFileName]: loading a
    record with no field at all over a state that holds a file name leaves
    no file name, not the empty string, while the other four fields get
    their defaults. *)
Lemma load_file_name_counterexample :
  let s0 := handleLoadAnalysis (Some (ZipFile Sample.withoutVideo)) true Sample.blank in
  let s' := handleLoadAnalysis
              (Some (ZipFile [("analysis_data.json",
                               Sample.textEntry (JsonObject Sample.emptyRecord))]))
              true s0 in
  videoFileName (files s0) = Some "wave.mp4"
  /\ notes (data s') = "" /\ drawings (data s') = []
  /\ annotations (data s') = [] /\ clips (data s') = []
  /\ videoFileName (files s') = None
  /\ videoFileName (files s') <> Some "".
Proof. cbv zeta. repeat split; try reflexivity. discriminate. Qed.

(** C8. On load each failure has a report of its own: a file that is not a
    readable archive is reported as an invalid ZIP, a data record that does
    not parse as corrupt data, a record whose named video the archive does
    not hold as video not found; the three messages differ from one another
    and from the success message. The first two leave data and files as
    they were. The third applies the parsed notes, drawings, annotations and
    clips (with their defaults) and the file name, and attaches no video:
    the video source and the video file stay as they were, which is absent
    where the archive input is offered. *)
Theorem load_failures_reported :
  (forall s,
      let s' := handleLoadAnalysis (Some NotAZip) true s in
      reported s' = Some msgInvalidZip /\ data s' = data s /\ files s' = files s)
  /\ (forall s zip entry,
      zip_file "analysis_data.json" zip = Some entry ->
      as_json entry = Malformed \/ as_json entry = JsonNull ->
      let s' := handleLoadAnalysis (Some (ZipFile zip)) true s in
      reported s' = Some msgCorrupt /\ data s' = data s /\ files s' = files s)
  /\ (forall s zip entry d,
      zip_file "analysis_data.json" zip = Some entry ->
      as_json entry = JsonObject d ->
      videoEntry d zip = None ->
      let s' := handleLoadAnalysis (Some (ZipFile zip)) true s in
      reported s' = Some msgNoVideo
      /\ notes (data s') = match p_notes d with Some n => n | None => "" end
      /\ drawings (data s') = match p_drawings d with Some l => l | None => [] end
      /\ annotations (data s') = match p_annotations d with Some l => l | None => [] end
      /\ clips (data s') = match p_clips d with Some l => l | None => [] end
      /\ videoFileName (files s') = p_primaryVideoFileName d
      /\ videoSrc (files s') = videoSrc (files s)
      /\ originalVideoFile (files s') = originalVideoFile (files s)
      /\ (videoSrc (files s) = None -> videoSrc (files s') = None))
  /\ msgInvalidZip <> msgCorrupt /\ msgInvalidZip <> msgNoVideo
  /\ msgCorrupt <> msgNoVideo
  /\ msgLoaded <> msgInvalidZip /\ msgLoaded <> msgCorrupt /\ msgLoaded <> msgNoVideo.
Proof.
  split; [| split; [| split]].
  - intros s. cbv zeta. cbn. repeat split; reflexivity.
  - intros s zip entry Hz Hj. cbv zeta. unfold handleLoadAnalysis. cbn [negb].
    rewrite Hz. destruct Hj as [-> | ->]; cbn; repeat split; reflexivity.
  - intros s zip entry d Hz Hj Hv. cbv zeta. unfold handleLoadAnalysis. cbn [negb].
    rewrite Hz, Hj. unfold applyAnalysisData. rewrite Hv. cbn.
    rewrite notes_or_empty_spec. repeat split; try reflexivity. auto.
  - repeat split; discriminate.
Qed.

(** A text file renamed to .zip; an archive whose record is cut short; an
    archive whose record names a video it does not hold. *)
Lemma load_failures_reported_witness :
  reported (handleLoadAnalysis (Some NotAZip) true Sample.blank) = Some msgInvalidZip
  /\ reported (handleLoadAnalysis
                 (Some (ZipFile [("analysis_data.json", Sample.textEntry Malformed)]))
                 true Sample.blank) = Some msgCorrupt
  /\ (let s' := handleLoadAnalysis (Some (ZipFile Sample.withoutVideo)) true Sample.blank in
      reported s' = Some msgNoVideo
      /\ notes (data s') = "take 3"
      /\ annotations (data s') = [Sample.ann "a1" 9 "Bottom Turn"]
      /\ clips (data s') = [Sample.bottomTurn]
      /\ videoSrc (files s') = None).
Proof.
  destruct load_failures_reported as (H1 & H2 & H3 & _).
  split; [apply H1 |].
  split.
  { apply (H2 Sample.blank [("analysis_data.json", Sample.textEntry Malformed)]
              (Sample.textEntry Malformed) eq_refl (or_introl eq_refl)). }
  destruct (H3 Sample.blank Sample.withoutVideo
              (Sample.textEntry
                 (JsonObject {| p_notes := Some "take 3"; p_drawings := None;
                                p_annotations := Some [Sample.ann "a1" 9 "Bottom Turn"];
                                p_clips := Some [Sample.bottomTurn];
                                p_primaryVideoFileName := Some "wave.mp4" |}))
              _ eq_refl eq_refl eq_refl)
    as (R & N & _ & A & C & _ & _ & _ & V).
  cbv zeta.
  split; [exact R |]. split; [exact N |]. split; [exact A |]. split; [exact C |].
  apply V. reflexivity.
Defined.

(** * Further properties *)

(** ** Transport controls *)

Lemma no_video_control (s : App) (c : Control) :
  videoRef (playback s) = None ->
  let s' := control s c in
  videoRef (playback s') = None
  /\ isClipPlaying (playback s') = isClipPlaying (playback s)
  /\ activeClipId (playback s') = activeClipId (playback s)
  /\ isPlaying (playback s') = isPlaying (playback s)
  /\ videoStateBeforeClip (playback s') = videoStateBeforeClip (playback s)
  /\ data s' = data s.
Proof.
  intros Hv.
  assert (Hplay : forall clip, playClip clip s = s) by (intros; unfold playClip; now rewrite Hv).
  assert (Hstop : stopClip true s = s)
    by (unfold stopClip, stopClipFrom; now rewrite Hv).
  assert (Htog : togglePlay s = s) by (unfold togglePlay; now rewrite Hv).
  assert (Hif : forall b : bool, (if b then s else s) = s) by (intros []; reflexivity).
  destruct c; cbn.
  - unfold transportButton. rewrite Hstop, Htog, Hif.
    repeat split; assumption || reflexivity.
  - unfold clipRowButton. rewrite Hstop, Hplay, Hif.
    repeat split; assumption || reflexivity.
  - unfold handleSpeedChange. cbn. rewrite Hv. cbn.
    repeat split; assumption || reflexivity.
  - rewrite Htog. repeat split; assumption || reflexivity.
  - rewrite Hplay. repeat split; assumption || reflexivity.
  - rewrite Hstop. repeat split; assumption || reflexivity.
  - unfold videoAdvance. rewrite Hv. repeat split; assumption || reflexivity.
  - unfold syncLoop. rewrite Hv. repeat split; assumption || reflexivity.
Qed.

(** X1. Without a <video> element no control gets anywhere: whatever buttons
    are pressed, clip mode, the active clip, the play flag, the saved
    position and the data stay what they are.  A session that is in clip
    mode with no element mounted stays in clip mode. *)
Theorem controls_inert_without_video (cs : list Control) (s : App) :
  videoRef (playback s) = None ->
  let s' := runControls cs s in
  videoRef (playback s') = None
  /\ isClipPlaying (playback s') = isClipPlaying (playback s)
  /\ activeClipId (playback s') = activeClipId (playback s)
  /\ isPlaying (playback s') = isPlaying (playback s)
  /\ videoStateBeforeClip (playback s') = videoStateBeforeClip (playback s)
  /\ data s' = data s.
Proof.
  unfold runControls. revert s.
  induction cs as [| c cs IH]; intros s Hv; [cbn; repeat split; assumption || reflexivity |].
  cbn [fold_left].
  destruct (no_video_control s c Hv) as (H1 & H2 & H3 & H4 & H5 & H6).
  destruct (IH (control s c) H1) as (I1 & I2 & I3 & I4 & I5 & I6).
  cbv zeta. rewrite I2, I3, I4, I5, I6. repeat split; assumption.
Qed.

Lemma controls_inert_without_video_witness :
  isClipPlaying
    (playback (runControls [PressTransport; Stop; PressClipRow Sample.bottomTurn; LoopFrame 1]
                 Demo.strandedClip)) = true.
Proof.
  destruct (controls_inert_without_video
              [PressTransport; Stop; PressClipRow Sample.bottomTurn; LoopFrame 1]
              Demo.strandedClip eq_refl) as (_ & H & _).
  exact H.
Defined.

Lemma transportAgrees_stopClip (s : App) : transportAgrees (stopClip true s).
Proof.
  unfold transportAgrees, stopClip, stopClipFrom.
  destruct (videoRef (playback s)) as [v |] eqn:E; [| now rewrite E].
  cbn. destruct (wasPlaying (videoStateBeforeClip (playback s))); cbn; auto.
Qed.

Lemma transportAgrees_playClip (c : Clip) (s : App) :
  transportAgrees s -> transportAgrees (playClip c s).
Proof.
  unfold transportAgrees, playClip.
  destruct (videoRef (playback s)) as [v |] eqn:E; [| now rewrite E].
  intros _. destruct (isClipPlaying (playback s)); cbn; discriminate.
Qed.

Lemma transportAgrees_togglePlay (s : App) :
  transportAgrees s -> transportAgrees (togglePlay s).
Proof.
  unfold transportAgrees, togglePlay.
  destruct (videoRef (playback s)) as [v |] eqn:E; [| now rewrite E].
  intros H. destruct (paused v); cbn; intros Hc; destruct (H Hc) as [_ Hr]; auto.
Qed.

Lemma transportAgrees_speed (r : number) (s : App) :
  transportAgrees s -> transportAgrees (handleSpeedChange r s).
Proof.
  unfold transportAgrees, handleSpeedChange. cbn.
  destruct (videoRef (playback s)) as [v |] eqn:E; cbn; [| now rewrite E].
  intros H. destruct (isClipPlaying (playback s)) eqn:Ec; cbn.
  - rewrite E, Ec. discriminate.
  - intros _. destruct (H eq_refl) as [Hp _]. auto.
Qed.

Lemma transportAgrees_advance (t : number) (s : App) :
  transportAgrees s -> transportAgrees (videoAdvance t s).
Proof.
  unfold transportAgrees, videoAdvance.
  destruct (videoRef (playback s)) as [v |] eqn:E; [| now rewrite E].
  intros H. destruct (paused v) eqn:Ep; cbn.
  - rewrite E, Ep. exact H.
  - rewrite Ep. exact H.
Qed.

(** A frame of the loop that holds the selected speed stops like the button. *)
Lemma syncLoop_fresh (r : number) (s : App) :
  (isClipPlaying (playback s) = true -> r = playbackSpeed (playback s)) ->
  syncLoop r s = s \/ syncLoop r s = stopClip true s.
Proof.
  intros Hr. unfold syncLoop.
  destruct (videoRef (playback s)); [| now left].
  destruct (isClipPlaying (playback s)); [| now left].
  destruct (activeClipId (playback s)) as [id |]; [| now left].
  destruct (str_truthy id); [| now left].
  destruct (findClip id (clips (data s))) as [c |]; [| now left].
  destruct (geb _ _); [right | now left].
  unfold stopClip. now rewrite (Hr eq_refl).
Qed.

Lemma playbackSpeed_stopClipFrom (r : number) (s : App) :
  playbackSpeed (playback (stopClipFrom r true s)) = playbackSpeed (playback s).
Proof.
  unfold stopClipFrom. destruct (videoRef (playback s)); [| reflexivity].
  cbn. now destruct (wasPlaying _).
Qed.

Lemma playbackSpeed_playClip (c : Clip) (s : App) :
  playbackSpeed (playback (playClip c s)) = playbackSpeed (playback s).
Proof.
  unfold playClip. destruct (videoRef (playback s)); [| reflexivity].
  now destruct (isClipPlaying (playback s)).
Qed.

Lemma playbackSpeed_videoAdvance (t : number) (s : App) :
  playbackSpeed (playback (videoAdvance t s)) = playbackSpeed (playback s).
Proof.
  unfold videoAdvance. destruct (videoRef (playback s)) as [v |]; [| reflexivity].
  now destruct (paused v).
Qed.

Lemma playbackSpeed_syncLoop (r : number) (s : App) :
  playbackSpeed (playback (syncLoop r s)) = playbackSpeed (playback s).
Proof.
  unfold syncLoop.
  destruct (videoRef (playback s)); [| reflexivity].
  destruct (isClipPlaying (playback s)); [| reflexivity].
  destruct (activeClipId (playback s)) as [id |]; [| reflexivity].
  destruct (str_truthy id); [| reflexivity].
  destruct (findClip id (clips (data s))) as [c |]; [| reflexivity].
  destruct (geb _ _); [apply playbackSpeed_stopClipFrom | reflexivity].
Qed.

(** In clip mode no gesture selects another speed. *)
Lemma gesture_keeps_speed (ss : Session) (g : Gesture) :
  isClipPlaying (playback (app ss)) = true ->
  playbackSpeed (playback (app (gesture ss g))) = playbackSpeed (playback (app ss)).
Proof.
  intros Hc. destruct g; cbn [gesture app].
  - unfold transportButton. rewrite Hc. apply playbackSpeed_stopClipFrom.
  - unfold clipRowButton.
    destruct (isClipPlaying (playback (app ss)) && _);
      [apply playbackSpeed_stopClipFrom | apply playbackSpeed_playClip].
  - unfold speedSelect. now rewrite Hc.
  - apply playbackSpeed_videoAdvance.
  - apply playbackSpeed_syncLoop.
Qed.

Lemma loopDeps_same_mode (s s' : App) :
  loopDepsChanged s s' = false ->
  isClipPlaying (playback s') = isClipPlaying (playback s).
Proof.
  unfold loopDepsChanged. intros H. apply negb_false_iff in H.
  apply andb_prop in H. destruct H as [H _]. apply Bool.eqb_prop in H. now symmetry.
Qed.

Lemma sessionAgrees_gesture (ss : Session) (g : Gesture) :
  sessionAgrees ss -> sessionAgrees (gesture ss g).
Proof.
  intros [Ht Hl]. split.
  - destruct g; cbn [gesture app].
    + unfold transportButton. destruct (isClipPlaying (playback (app ss)));
        [apply transportAgrees_stopClip | now apply transportAgrees_togglePlay].
    + unfold clipRowButton. destruct (isClipPlaying (playback (app ss)) && _);
        [apply transportAgrees_stopClip | now apply transportAgrees_playClip].
    + unfold speedSelect. destruct (isClipPlaying (playback (app ss)));
        [exact Ht | now apply transportAgrees_speed].
    + now apply transportAgrees_advance.
    + destruct (syncLoop_fresh (loopSpeed ss) (app ss) Hl) as [-> | ->];
        [exact Ht | apply transportAgrees_stopClip].
  - intros Hc.
    assert (E : loopSpeed (gesture ss g)
                = if loopDepsChanged (app ss) (app (gesture ss g))
                  then playbackSpeed (playback (app (gesture ss g)))
                  else loopSpeed ss) by now destruct g.
    rewrite E. destruct (loopDepsChanged _ _) eqn:Ed; [reflexivity |].
    apply loopDeps_same_mode in Ed. rewrite Hc in Ed. symmetry in Ed.
    rewrite (gesture_keeps_speed ss g Ed). now apply Hl.
Qed.

(** X2. Through the controls as the page offers them (the main button, the
    clip rows, the speed select, which is disabled while a clip plays),
    playback and the frames of the sync loop, the transport agrees with the
    element whenever no clip is playing: the Play/Pause label says what the
    element does and the selected speed is the rate of the element. The
    loop stops a clip through the [stopClip] of the render its effect was
    created in; that effect is created again when a clip starts, and no
    speed can be selected during a clip, so the speed the loop restores is
    the selected one. If all this holds of a session, it holds after any
    sequence of such gestures. *)
Theorem transport_agrees_invariant (gs : list Gesture) (ss : Session) :
  sessionAgrees ss -> sessionAgrees (runGestures gs ss).
Proof.
  unfold runGestures. revert ss.
  induction gs as [| g gs IH]; intros ss H; [exact H |].
  cbn [fold_left]. apply IH. now apply sessionAgrees_gesture.
Qed.

(** Speed 1.5 selected, then a clip at half speed played and stopped by the
    loop: the element is back at rate 1.5, paused. *)
Lemma transport_agrees_invariant_witness :
  let gs := [PickSpeed 1.5; TapClipRow Sample.bottomTurn; Plays 10; Renders] in
  let ss := {| app := Sample.annotated; loopSpeed := 1 |} in
  sessionAgrees ss
  /\ sessionAgrees (runGestures gs ss)
  /\ exists v, videoRef (playback (app (runGestures gs ss))) = Some v
               /\ isClipPlaying (playback (app (runGestures gs ss))) = false
               /\ playbackRate v = 1.5 /\ paused v = true.
Proof.
  cbv zeta.
  assert (A : sessionAgrees {| app := Sample.annotated; loopSpeed := 1 |}).
  { split; [unfold transportAgrees; vm_compute; auto | discriminate]. }
  split; [exact A |].
  split.
  - exact (transport_agrees_invariant
             [PickSpeed 1.5; TapClipRow Sample.bottomTurn; Plays 10; Renders]
             {| app := Sample.annotated; loopSpeed := 1 |} A).
  - eexists. split; [vm_compute; reflexivity |]. repeat split; reflexivity.
Defined.

(** ** The sync loop *)

Lemma stopClipFrom_resume (speed : number) (s : App) (v : Video) :
  videoRef (playback s) = Some v ->
  let saved := videoStateBeforeClip (playback s) in
  let s' := stopClipFrom speed true s in
  videoRef (playback s')
  = Some {| currentTime := sv_time saved; duration := duration v;
            paused := negb (wasPlaying saved); playbackRate := speed |}
  /\ isPlaying (playback s') = wasPlaying saved
  /\ isClipPlaying (playback s') = false
  /\ activeClipId (playback s') = None
  /\ videoStateBeforeClip (playback s') = saved.
Proof.
  intros Hv. unfold stopClipFrom. rewrite Hv. cbn.
  destruct (wasPlaying (videoStateBeforeClip (playback s))); cbn;
    repeat split; reflexivity.
Qed.

Lemma playClip_then_advance (c : Clip) (s : App) (v : Video) (t : number) :
  videoRef (playback s) = Some v ->
  isClipPlaying (playback s) = false ->
  let s1 := videoAdvance t (playClip c s) in
  videoRef (playback s1)
  = Some {| currentTime := t; duration := duration v; paused := false;
            playbackRate := speed c |}
  /\ isClipPlaying (playback s1) = true
  /\ activeClipId (playback s1) = Some (c_id c)
  /\ videoStateBeforeClip (playback s1)
     = {| sv_time := currentTime v; wasPlaying := negb (paused v) |}
  /\ data s1 = data s.
Proof.
  intros Hv Hi. unfold videoAdvance, playClip. rewrite Hv, Hi. cbn.
  repeat split; reflexivity.
Qed.

(** X3. A clip played from the idle state is ended by the loop exactly when the
    position has reached the clip's end: on the frame that sees a position
    at or past [endTime] the video is back where it was before the clip, in
    its play/pause state, and clip mode is left; on a frame that sees an
    earlier position the clip goes on at its own speed. *)
Theorem loop_stops_clip_at_its_end (c : Clip) (s : App) (v : Video)
    (t closureSpeed : number) :
  videoRef (playback s) = Some v ->
  isClipPlaying (playback s) = false ->
  findClip (c_id c) (clips (data s)) = Some c ->
  c_id c <> "" ->
  let s1 := run [Advance t; Frame closureSpeed] (playClip c s) in
  exists v',
    videoRef (playback s1) = Some v'
    /\ if endTime c <=? t
       then isClipPlaying (playback s1) = false
            /\ activeClipId (playback s1) = None
            /\ currentTime v' = currentTime v
            /\ paused v' = paused v
       else isClipPlaying (playback s1) = true
            /\ activeClipId (playback s1) = Some (c_id c)
            /\ currentTime v' = t
            /\ playbackRate v' = speed c.
Proof.
  intros Hv Hi Hf Hid.
  destruct (playClip_then_advance c s v t Hv Hi) as (H1 & H2 & H3 & H4 & H5).
  cbv zeta. unfold run. cbn [fold_left step].
  set (s1 := videoAdvance t (playClip c s)) in *.
  unfold syncLoop. rewrite H1, H2, H3, H5, Hf.
  rewrite (str_truthy_nonempty _ Hid). unfold geb. cbn [currentTime].
  destruct (endTime c <=? t).
  - destruct (stopClipFrom_resume closureSpeed s1 _ H1) as (Hr & _ & Hc & Ha & _).
    rewrite H4 in Hr. cbn in Hr. rewrite negb_involutive in Hr.
    eexists. split; [exact Hr |]. cbn. auto.
  - eexists. split; [exact H1 |]. cbn. auto.
Qed.

(** The clip from 9s to 10s, over a video paused at 2s: still playing at
    9.5s, back at 2s on the frame that sees 10s. *)
Lemma loop_stops_clip_at_its_end_witness :
  (exists v', videoRef (playback (run [Advance 9.5; Frame 1]
                                    (playClip Sample.bottomTurn Sample.annotated))) = Some v'
              /\ currentTime v' = 9.5)
  /\ (exists v', videoRef (playback (run [Advance 10; Frame 1]
                                       (playClip Sample.bottomTurn Sample.annotated))) = Some v'
                 /\ currentTime v' = 2 /\ paused v' = true).
Proof.
  assert (N : c_id Sample.bottomTurn <> "") by discriminate.
  split.
  - destruct (loop_stops_clip_at_its_end Sample.bottomTurn Sample.annotated
                {| currentTime := 2; duration := 10; paused := true; playbackRate := 1 |}
                9.5 1 eq_refl eq_refl eq_refl N) as (v' & H1 & H2).
    exists v'. split; [exact H1 |].
    change (endTime Sample.bottomTurn <=? 9.5) with false in H2.
    destruct H2 as (_ & _ & H & _). exact H.
  - destruct (loop_stops_clip_at_its_end Sample.bottomTurn Sample.annotated
                {| currentTime := 2; duration := 10; paused := true; playbackRate := 1 |}
                10 1 eq_refl eq_refl eq_refl N) as (v' & H1 & H2).
    exists v'. split; [exact H1 |].
    change (endTime Sample.bottomTurn <=? 10) with true in H2.
    destruct H2 as (_ & _ & H & H'). split; [exact H | exact H'].
Defined.

Lemma findClip_deleted (c : Clip) (cs : list Clip) :
  findClip (c_id c) (filter (fun c0 => str_neq (c_id c0) (c_id c)) cs) = None.
Proof.
  unfold findClip, str_neq. induction cs as [| c0 cs IH]; [reflexivity |].
  cbn. destruct (String.eqb (c_id c0) (c_id c)) eqn:E; cbn; [exact IH |].
  rewrite E. exact IH.
Qed.

Lemma adrift_step (id : string) (s : App) (ev : Event) :
  isPlayback ev = true -> adrift id s -> adrift id (step s ev).
Proof.
  intros Hev (Hc & Ha & Hf). destruct ev; try discriminate; cbn.
  - unfold videoAdvance.
    destruct (videoRef (playback s)) as [v |]; [destruct (paused v) |];
      cbn; repeat split; assumption.
  - unfold syncLoop. rewrite Hc, Ha, Hf.
    destruct (videoRef (playback s)); [destruct (str_truthy id) |];
      repeat split; assumption.
Qed.

Lemma adrift_run (id : string) (evs : list Event) :
  forallb isPlayback evs = true -> forall s, adrift id s -> adrift id (run evs s).
Proof.
  unfold run. induction evs as [| ev evs IH]; intros Hevs s H; [exact H |].
  cbn [forallb] in Hevs. apply andb_prop in Hevs. destruct Hevs as [Hev Hevs].
  cbn [fold_left]. apply IH; [exact Hevs |]. now apply adrift_step.
Qed.

(** X4. Once the clip that is playing has been deleted, or all clips have been
    cleared, the loop never ends clip mode: however far the video plays and
    however many frames run, the session stays in clip mode with the same
    active clip id (only a stop button ends it). *)
Theorem loop_never_stops_removed_clip (c : Clip) (s : App) (evs : list Event) :
  isClipPlaying (playback s) = true ->
  activeClipId (playback s) = Some (c_id c) ->
  forallb isPlayback evs = true ->
  (isClipPlaying (playback (run evs (deleteClip c s))) = true
   /\ activeClipId (playback (run evs (deleteClip c s))) = Some (c_id c))
  /\ (isClipPlaying (playback (run evs (clearAllConfirmed s))) = true
      /\ activeClipId (playback (run evs (clearAllConfirmed s))) = Some (c_id c)).
Proof.
  intros Hc Ha Hevs. split.
  - destruct (adrift_run (c_id c) evs Hevs (deleteClip c s)) as (H1 & H2 & _).
    + unfold adrift. cbn. split; [exact Hc | split; [exact Ha | apply findClip_deleted]].
    + split; assumption.
  - destruct (adrift_run (c_id c) evs Hevs (clearAllConfirmed s)) as (H1 & H2 & _).
    + unfold adrift. cbn. split; [exact Hc | split; [exact Ha | reflexivity]].
    + split; assumption.
Qed.

(** The clip from 9s to 10s deleted while it plays: frames at 10s and at
    60s leave the session in clip mode. *)
Lemma loop_never_stops_removed_clip_witness :
  isClipPlaying
    (playback (run [Advance 10; Frame 1; Advance 60; Frame 1]
                 (deleteClip Sample.bottomTurn Demo.inClip))) = true.
Proof.
  destruct (loop_never_stops_removed_clip Sample.bottomTurn Demo.inClip
              [Advance 10; Frame 1; Advance 60; Frame 1] eq_refl eq_refl eq_refl)
    as ((H & _) & _).
  exact H.
Defined.

(** ** The button of a clip row *)

Lemma ticks_keep_clip (sv : SavedState) (id : option string) (ticks : list Control) :
  forallb isTick ticks = true ->
  forall s, stacked sv s -> activeClipId (playback s) = id ->
  stacked sv (runControls ticks s)
  /\ activeClipId (playback (runControls ticks s)) = id.
Proof.
  unfold runControls. induction ticks as [| c ticks IH]; intros Ht s H Ha; [auto |].
  cbn [forallb] in Ht. apply andb_prop in Ht. destruct Ht as [Hc Ht].
  cbn [fold_left]. destruct c; try discriminate. cbn [control].
  apply IH; [exact Ht | now apply stacked_videoAdvance |].
  unfold videoAdvance.
  destruct (videoRef (playback s)) as [v |]; [destruct (paused v) |]; cbn; exact Ha.
Qed.

(** X5. The play button of a clip row is a toggle: pressed from the idle state
    it starts the clip and makes it the active one; pressed again while that
    clip plays, however far it has played, it stops the clip and puts the
    video back at the position and in the play/pause state of before the
    first press. *)
Theorem clip_row_button_toggles (c : Clip) (s : App) (v : Video)
    (ticks : list Control) :
  videoRef (playback s) = Some v ->
  isClipPlaying (playback s) = false ->
  forallb isTick ticks = true ->
  let s1 := runControls ticks (clipRowButton c s) in
  let s2 := clipRowButton c s1 in
  isClipPlaying (playback s1) = true
  /\ activeClipId (playback s1) = Some (c_id c)
  /\ isClipPlaying (playback s2) = false
  /\ activeClipId (playback s2) = None
  /\ exists v',
      videoRef (playback s2) = Some v'
      /\ currentTime v' = currentTime v
      /\ paused v' = paused v.
Proof.
  intros Hv Hi Ht. cbv zeta.
  assert (E0 : clipRowButton c s = playClip c s).
  { unfold clipRowButton. now rewrite Hi. }
  rewrite E0.
  destruct (playClip_from_idle c s v Hv Hi) as (Hsv & Hc & Ha & Hv1).
  assert (Hst : stacked {| sv_time := currentTime v; wasPlaying := negb (paused v) |}
                  (playClip c s)).
  { repeat split; [exact Hsv | rewrite Hv1; discriminate | exact Hc]. }
  destruct (ticks_keep_clip _ _ ticks Ht (playClip c s) Hst Ha)
    as ([[Hs Hpres] Hc1] & Ha1).
  set (s1 := runControls ticks (playClip c s)) in *.
  assert (E1 : clipRowButton c s1 = stopClip true s1).
  { unfold clipRowButton. now rewrite Hc1, Ha1, String.eqb_refl. }
  rewrite E1.
  destruct (videoRef (playback s1)) as [w |] eqn:Ew; [| congruence].
  destruct (stopClip_resume s1 w Ew) as (Hr & _ & Hclip & Hact & _).
  rewrite Hs in Hr. cbn in Hr. rewrite negb_involutive in Hr.
  split; [exact Hc1 |]. split; [exact Ha1 |].
  split; [exact Hclip |]. split; [exact Hact |].
  eexists. split; [exact Hr |]. cbn. split; reflexivity.
Qed.

(** The clip from 9s to 10s started over a video playing at 2s and stopped
    with the same button at 9.5s. *)
Lemma clip_row_button_toggles_witness :
  let s := setVideo (Some {| currentTime := 2; duration := 10; paused := false;
                             playbackRate := 1 |}) Sample.annotated in
  exists v',
    videoRef (playback (clipRowButton Sample.bottomTurn
                          (runControls [Tick 9.25; Tick 9.5]
                             (clipRowButton Sample.bottomTurn s)))) = Some v'
    /\ currentTime v' = 2 /\ paused v' = false.
Proof.
  cbv zeta.
  destruct (clip_row_button_toggles Sample.bottomTurn
              (setVideo (Some {| currentTime := 2; duration := 10; paused := false;
                                 playbackRate := 1 |}) Sample.annotated)
              {| currentTime := 2; duration := 10; paused := false; playbackRate := 1 |}
              [Tick 9.25; Tick 9.5] eq_refl eq_refl eq_refl)
    as (_ & _ & _ & _ & v' & H1 & H2 & H3).
  exists v'. split; [exact H1 |]. split; [exact H2 | exact H3].
Defined.

(** ** Pointer events and the prompt *)

Lemma pointer_off_step (s : App) (ev : Event) :
  annotationOff s -> isDrawing (tools s) = false -> isPointer ev = true ->
  step s ev = s.
Proof.
  intros Hoff Hd Hev. destruct ev; try discriminate; cbn.
  - unfold handleStartInteraction.
    destruct Hoff as [H | [H | [H | H]]].
    + now rewrite H.
    + rewrite H. now destruct (videoSrc (files s)).
    + rewrite H. cbn. destruct (videoSrc (files s)); [| reflexivity].
      now destruct (isClipPlaying (playback s)).
    + rewrite H. destruct (videoSrc (files s)); [| reflexivity].
      destruct (isClipPlaying (playback s)); [reflexivity |].
      now destruct (ToolMode_eqb (currentMode (tools s)) none).
  - unfold handleMoveInteraction. now rewrite Hd.
  - unfold handleEndInteraction. now rewrite Hd.
Qed.

(** X7. While annotating is off (no video chosen, or a clip playing, or the
    navigation mode, or no canvas) and no stroke is under way, presses,
    moves and releases on the canvas change nothing at all: no prompt, no
    point, no path. *)
Theorem pointer_inert_when_off (evs : list Event) (s : App) :
  annotationOff s ->
  isDrawing (tools s) = false ->
  forallb isPointer evs = true ->
  run evs s = s.
Proof.
  intros Hoff Hd. unfold run.
  induction evs as [| ev evs IH]; intros Hevs; [reflexivity |].
  cbn [forallb] in Hevs. apply andb_prop in Hevs. destruct Hevs as [Hev Hevs].
  cbn [fold_left]. rewrite (pointer_off_step s ev Hoff Hd Hev). now apply IH.
Qed.

(** A press, two moves and a release over the canvas while a clip plays. *)
Lemma pointer_inert_when_off_witness :
  let s := setTools {| currentMode := pen; brushColor := "#00ff00"; brushSize := 5;
                       isDrawing := false; currentPathRef := [] |} Demo.inClip in
  run [PointerDown (MouseEvent 330 200); PointerMove (MouseEvent 340 210);
       PointerMove (MouseEvent 350 220); PointerUp "d1"] s = s.
Proof.
  cbv zeta.
  apply pointer_inert_when_off; [right; left; reflexivity | reflexivity | reflexivity].
Defined.

Lemma press_opens_prompt (s : App) (canvas : Canvas) (e : PointerEvent) (pos : Point) :
  videoSrc (files s) <> None ->
  isClipPlaying (playback s) = false ->
  currentMode (tools s) = point ->
  canvasRef s = Some canvas ->
  getNormalizedPos e canvas = Some pos ->
  let s1 := step s (PointerDown e) in
  data s1 = data s
  /\ playback s1 = playback s
  /\ modalConfig s1
     = {| isOpen := true; m_type := input; title := "Nome do ponto / Clip:";
          message := None;
          defaultValue :=
            Some ("Ponto " ++ show_nat (List.length (annotations (data s)) + 1));
          onConfirm := PromptThen (AddPointAndClip pos (brushColor (tools s)));
          onCancel := CloseModal |}.
Proof.
  intros Hsrc Hclip Hm Hc Hp. cbn. unfold handleStartInteraction.
  destruct (videoSrc (files s)); [| congruence].
  rewrite Hclip, Hm, Hc, Hp. cbn. auto.
Qed.

(** X8. A prompt that is cancelled, or confirmed with an empty name, places
    nothing: the data is what it was before the press and the modal is
    closed; and once it is closed, a later confirmation does nothing. *)
Theorem prompt_dismissed_adds_nothing (s : App) (canvas : Canvas)
    (e : PointerEvent) (pos : Point) (text annId clipId : string) :
  videoSrc (files s) <> None ->
  isClipPlaying (playback s) = false ->
  currentMode (tools s) = point ->
  canvasRef s = Some canvas ->
  getNormalizedPos e canvas = Some pos ->
  let s1 := step s (PointerDown e) in
  let cancelled := Modal_handleCancel s1 in
  let emptied := Modal_handleConfirm "" annId clipId s1 in
  isOpen (modalConfig s1) = true
  /\ data cancelled = data s /\ isOpen (modalConfig cancelled) = false
  /\ data emptied = data s /\ isOpen (modalConfig emptied) = false
  /\ Modal_handleConfirm text annId clipId cancelled = cancelled.
Proof.
  intros Hsrc Hclip Hm Hc Hp.
  destruct (press_opens_prompt s canvas e pos Hsrc Hclip Hm Hc Hp) as (Hd & _ & Hmo).
  cbv zeta. set (s1 := step s (PointerDown e)) in *. clearbody s1.
  unfold Modal_handleCancel, Modal_handleConfirm. rewrite Hmo. cbn.
  rewrite Hd. repeat split; reflexivity.
Qed.

Lemma prompt_dismissed_adds_nothing_witness :
  let s1 := step (Sample.session point 9 10 true) (PointerDown (MouseEvent 330 200)) in
  isOpen (modalConfig s1) = true
  /\ annotations (data (Modal_handleCancel s1)) = []
  /\ clips (data (Modal_handleConfirm "" "a1" "c1" s1)) = [].
Proof.
  assert (N : Some (createObjectURL Sample.file) <> None) by discriminate.
  destruct (prompt_dismissed_adds_nothing (Sample.session point 9 10 true)
              Sample.canvas (MouseEvent 330 200) {| x := 0.5; y := 0.5 |}
              "Bottom Turn" "a1" "c1" N eq_refl eq_refl eq_refl eq_refl)
    as (H1 & H2 & _ & H3 & _).
  cbv zeta. split; [exact H1 |].
  split; [now rewrite H2 | now rewrite H3].
Defined.

(** X9. The prompt comes prefilled with "Ponto n", n being one more than the
    number of annotations; confirmed as it is, it appends an annotation and
    a clip that both carry that name. *)
Theorem prompt_default_names_point (s : App) (canvas : Canvas)
    (e : PointerEvent) (pos : Point) (annId clipId : string) :
  videoSrc (files s) <> None ->
  isClipPlaying (playback s) = false ->
  currentMode (tools s) = point ->
  canvasRef s = Some canvas ->
  getNormalizedPos e canvas = Some pos ->
  let s1 := step s (PointerDown e) in
  let name := "Ponto " ++ show_nat (List.length (annotations (data s)) + 1) in
  let s' := Modal_handleConfirm (Modal_inputValue (modalConfig s1)) annId clipId s1 in
  Modal_inputValue (modalConfig s1) = name
  /\ map a_text (annotations (data s'))
     = (map a_text (annotations (data s)) ++ [name])%list
  /\ map c_name (clips (data s'))
     = (map c_name (clips (data s)) ++ [name])%list
  /\ isOpen (modalConfig s') = false.
Proof.
  intros Hsrc Hclip Hm Hc Hp.
  destruct (press_opens_prompt s canvas e pos Hsrc Hclip Hm Hc Hp) as (Hd & _ & Hmo).
  cbv zeta. set (s1 := step s (PointerDown e)) in *. clearbody s1.
  unfold Modal_inputValue, Modal_handleConfirm. rewrite Hmo. cbn.
  rewrite Hd, !map_app. repeat split; reflexivity.
Qed.

(** The third point of a session that holds two. *)
Lemma prompt_default_names_point_witness :
  let s := setAnnotations [Sample.ann "a1" 9 "Ponto 1"; Sample.ann "a2" 4 "Ponto 2"]
             (Sample.session point 5 10 true) in
  let s1 := step s (PointerDown (MouseEvent 330 200)) in
  Modal_inputValue (modalConfig s1) = "Ponto 3".
Proof.
  assert (N : Some (createObjectURL Sample.file) <> None) by discriminate.
  destruct (prompt_default_names_point
              (setAnnotations [Sample.ann "a1" 9 "Ponto 1"; Sample.ann "a2" 4 "Ponto 2"]
                 (Sample.session point 5 10 true))
              Sample.canvas (MouseEvent 330 200) {| x := 0.5; y := 0.5 |}
              "a3" "c3" N eq_refl eq_refl eq_refl eq_refl) as (H & _).
  exact H.
Defined.

(** ** Deleting clips, continued *)

Lemma filter_filter_same {A : Type} (f : A -> bool) (l : list A) :
  filter f (filter f l) = filter f l.
Proof.
  induction l as [| a l IH]; [reflexivity |].
  cbn. destruct (f a) eqn:E; cbn; [rewrite E, IH |]; auto.
Qed.

Lemma filter_filter_comm {A : Type} (f g : A -> bool) (l : list A) :
  filter f (filter g l) = filter g (filter f l).
Proof.
  induction l as [| a l IH]; [reflexivity |].
  cbn. destruct (f a) eqn:Ef, (g a) eqn:Eg; cbn; rewrite ?Ef, ?Eg, IH; reflexivity.
Qed.

(** X10. Deleting a clip twice is deleting it once, and two deletions give the
    same session in either order. *)
Theorem deleteClip_idempotent_commutes (c1 c2 : Clip) (s : App) :
  deleteClip c1 (deleteClip c1 s) = deleteClip c1 s
  /\ deleteClip c1 (deleteClip c2 s) = deleteClip c2 (deleteClip c1 s).
Proof.
  unfold deleteClip, setClips, setAnnotations, setData. cbn. split.
  - now rewrite !filter_filter_same.
  - rewrite (filter_filter_comm (fun c => str_neq (c_id c) (c_id c1))).
    rewrite (filter_filter_comm (fun a => str_neq (a_text a) (c_name c1))).
    reflexivity.
Qed.

(** X11. The link between a clip and its annotation is the name only: deleting
    a clip leaves every other clip of the same name in the list while no
    annotation of that name is left for it. *)
Theorem deleteClip_orphans_namesake (c c' : Clip) (s : App) :
  In c' (clips (data s)) ->
  c_id c' <> c_id c ->
  c_name c' = c_name c ->
  let s' := deleteClip c s in
  In c' (clips (data s'))
  /\ forall a, In a (annotations (data s')) -> a_text a <> c_name c'.
Proof.
  intros Hin Hid Hname. cbn. split.
  - apply filter_In. split; [exact Hin |]. now apply str_neq_true.
  - intros a Ha. apply filter_In in Ha. destruct Ha as [_ Ha].
    rewrite Hname. now apply str_neq_true.
Qed.

(** Two points both named "Ponto 2": deleting the clip of the first leaves
    the clip of the second with no annotation. *)
Lemma deleteClip_orphans_namesake_witness :
  let c1 := {| c_id := "c1"; c_name := "Ponto 2"; startTime := 1; endTime := 3;
               c_duration := 2; speed := 0.5 |} in
  let c2 := {| c_id := "c2"; c_name := "Ponto 2"; startTime := 5; endTime := 7;
               c_duration := 2; speed := 0.5 |} in
  let s := setClips [c1; c2]
             (setAnnotations [Sample.ann "a1" 1 "Ponto 2"; Sample.ann "a2" 5 "Ponto 2"]
                (Sample.session none 0 10 true)) in
  In c2 (clips (data (deleteClip c1 s)))
  /\ annotations (data (deleteClip c1 s)) = [].
Proof.
  cbv zeta. split; [| reflexivity].
  assert (N : "c2" <> "c1") by discriminate.
  refine (proj1 (deleteClip_orphans_namesake
                   {| c_id := "c1"; c_name := "Ponto 2"; startTime := 1; endTime := 3;
                      c_duration := 2; speed := 0.5 |}
                   {| c_id := "c2"; c_name := "Ponto 2"; startTime := 5; endTime := 7;
                      c_duration := 2; speed := 0.5 |}
                   _ _ N eq_refl)).
  cbn. right. left. reflexivity.
Defined.

(** ** A new session *)

(** X15. Neither starting a new analysis nor choosing a new video leaves clip
    mode: when a clip is playing, both keep the session in clip mode, and
    presses, moves and releases on the canvas of the new video do nothing
    (nothing is under way from the old session) until the clip is
    stopped. *)
Theorem new_session_keeps_clip_mode (f : File) (evs : list Event) (s : App) :
  isClipPlaying (playback s) = true ->
  isDrawing (tools s) = false ->
  forallb isPointer evs = true ->
  let s' := handleVideoUpload (Some f) (newAnalysisConfirmed s) in
  isClipPlaying (playback s') = true
  /\ data s' = {| notes := ""; drawings := []; annotations := []; clips := [] |}
  /\ run evs s' = s'.
Proof.
  intros Hc Hd Hevs. cbv zeta.
  split; [exact Hc |]. split; [reflexivity |].
  apply pointer_inert_when_off; [right; left; exact Hc | exact Hd | exact Hevs].
Qed.

Lemma new_session_keeps_clip_mode_witness :
  let s' := handleVideoUpload (Some Demo.video) (newAnalysisConfirmed Demo.inClip) in
  run [PointerDown (MouseEvent 330 200); PointerUp "d1"] s' = s'.
Proof.
  cbv zeta.
  destruct (new_session_keeps_clip_mode Demo.video
              [PointerDown (MouseEvent 330 200); PointerUp "d1"] Demo.inClip
              eq_refl eq_refl eq_refl) as (_ & _ & H).
  exact H.
Defined.

(** ** Loading and saving *)

(** X16. A load with no file chosen or without the zip library does nothing and
    reports nothing; a readable zip that has no entry "analysis_data.json"
    is reported as an invalid ZIP and leaves data and files as they were. *)
Theorem load_without_record (s : App) :
  (forall jszip, handleLoadAnalysis None jszip s = s)
  /\ (forall file, handleLoadAnalysis file false s = s)
  /\ (forall zip,
        zip_file "analysis_data.json" zip = None ->
        let s' := handleLoadAnalysis (Some (ZipFile zip)) true s in
        reported s' = Some msgInvalidZip /\ data s' = data s /\ files s' = files s).
Proof.
  split; [reflexivity |]. split.
  - intros [f |]; reflexivity.
  - intros zip Hz. cbv zeta. unfold handleLoadAnalysis. cbn [negb]. rewrite Hz.
    repeat split; reflexivity.
Qed.

(** A zip that holds a video only. *)
Lemma load_without_record_witness :
  reported (handleLoadAnalysis
              (Some (ZipFile [("wave.mp4", Sample.textEntry Malformed)]))
              true Sample.blank) = Some msgInvalidZip.
Proof.
  destruct (load_without_record Sample.blank) as (_ & _ & H).
  destruct (H [("wave.mp4", Sample.textEntry Malformed)] eq_refl) as (R & _).
  exact R.
Defined.

Lemma data_eta (d : Data) :
  {| notes := notes d; drawings := drawings d;
     annotations := annotations d; clips := clips d |} = d.
Proof. now destruct d. Qed.

(** X17. When the record parses and names a video the archive holds, the load
    applies the record and attaches that video: the file of the session
    gets the name of the record and the bytes and type of the entry, the
    video source is the object URL of that file, and success is reported. *)
Theorem load_attaches_named_video (s : App) (zip : Zip) (rec vid : ZipEntry)
    (d : ParsedData) (name : string) :
  zip_file "analysis_data.json" zip = Some rec ->
  as_json rec = JsonObject d ->
  p_primaryVideoFileName d = Some name ->
  name <> "" ->
  zip_file name zip = Some vid ->
  let s' := handleLoadAnalysis (Some (ZipFile zip)) true s in
  let f := {| file_name := name; file_type := blob_type (as_blob vid);
              file_data := blob_data (as_blob vid) |} in
  originalVideoFile (files s') = Some f
  /\ videoSrc (files s') = Some (createObjectURL f)
  /\ videoFileName (files s') = Some name
  /\ reported s' = Some msgLoaded
  /\ notes (data s') = match p_notes d with Some n => n | None => "" end
  /\ drawings (data s') = match p_drawings d with Some l => l | None => [] end
  /\ annotations (data s') = match p_annotations d with Some l => l | None => [] end
  /\ clips (data s') = match p_clips d with Some l => l | None => [] end.
Proof.
  intros Hz Hj Hn Hne Hv. cbv zeta. unfold handleLoadAnalysis. cbn [negb].
  rewrite Hz, Hj. unfold applyAnalysisData, videoEntry.
  rewrite Hn, (str_truthy_nonempty name Hne), Hv. cbn.
  rewrite notes_or_empty_spec. repeat split; reflexivity.
Qed.

Lemma load_attaches_named_video_witness :
  originalVideoFile (files (handleLoadAnalysis (Some (ZipFile Demo.archive)) true Sample.blank))
  = Some {| file_name := "wave.mp4"; file_type := ""; file_data := "ftypisom" |}.
Proof.
  assert (N : "wave.mp4" <> "") by discriminate.
  destruct (load_attaches_named_video Sample.blank Demo.archive
              {| as_json := JsonObject {| p_notes := Some "take 3";
                                          p_drawings := Some [Sample.path "p1" 1];
                                          p_annotations :=
                                            Some [Sample.ann "a1" 9 "Bottom Turn";
                                                  Sample.ann "a2" 4 "Cutback";
                                                  Sample.ann "a3" 7 "Bottom Turn"];
                                          p_clips := Some [Sample.bottomTurn; Sample.cutback];
                                          p_primaryVideoFileName := Some "wave.mp4" |};
                 as_blob := {| blob_type := ""; blob_data := "" |} |}
              {| as_json := Malformed;
                 as_blob := {| blob_type := ""; blob_data := "ftypisom" |} |}
              _ "wave.mp4" eq_refl eq_refl eq_refl N eq_refl) as (H & _).
  exact H.
Defined.

Lemma name_or_default_nonempty (v : option string) : name_or_default v <> "".
Proof. destruct v as [[| c n] |]; discriminate. Qed.

(** X18. Saving never touches the session beyond the alert it raises; it hands
    an archive to the download exactly when both libraries are there and
    the session holds the original video file, and raises the error alert
    otherwise. *)
Theorem save_only_reports (jszip saveAs : bool) (date : string) (s : App) :
  let r := handleSaveAnalysis jszip saveAs date s in
  data (fst r) = data s
  /\ files (fst r) = files s
  /\ playback (fst r) = playback s
  /\ tools (fst r) = tools s
  /\ (snd r <> None
      <-> jszip = true /\ saveAs = true /\ originalVideoFile (files s) <> None)
  /\ (snd r = None -> reported (fst r) = Some msgSaveError)
  /\ (snd r <> None -> reported (fst r) = Some msgSaved).
Proof.
  cbv zeta. unfold handleSaveAnalysis.
  destruct jszip, saveAs; cbn;
    try (repeat split; try reflexivity; try congruence;
         intros (? & ? & ?); congruence).
  destruct (originalVideoFile (files s)) as [f |]; cbn;
    repeat split; try reflexivity; try congruence; try discriminate.
  intros (_ & _ & H). congruence.
Qed.

(** X19. Save, then load what was saved. If the session holds its video file,
    the name the video is stored under is not "analysis_data.json", and the
    archive is read back as written (which needs all numbers of the record
    to be ones JSON keeps), then loading it into any session restores the
    notes, drawings, annotations and clips field for field and in order,
    and attaches a file of the stored name with the bytes of the original;
    the name is the video file name, or "video.mp4" when there is none. *)
Theorem save_load_round_trip (s s0 : App) (file : File) (date : string)
    (dl : Download) (zip : Zip) :
  originalVideoFile (files s) = Some file ->
  snd (handleSaveAnalysis true true date s) = Some dl ->
  name_or_default (videoFileName (files s)) <> "analysis_data.json" ->
  archiveReadsBack (dl_zip dl) zip ->
  let name := name_or_default (videoFileName (files s)) in
  let s' := handleLoadAnalysis (Some (ZipFile zip)) true s0 in
  data s' = data s
  /\ videoFileName (files s') = Some name
  /\ (exists f', originalVideoFile (files s') = Some f'
                 /\ videoSrc (files s') = Some (createObjectURL f')
                 /\ file_name f' = name
                 /\ file_data f' = file_data file)
  /\ reported s' = Some msgLoaded.
Proof.
  intros Hf Hsave Hname Hread. cbv zeta.
  set (name := name_or_default (videoFileName (files s))) in *.
  assert (En : String.eqb "analysis_data.json" name = false).
  { apply String.eqb_neq. congruence. }
  unfold handleSaveAnalysis in Hsave. rewrite Hf in Hsave.
  cbn [negb orb snd primaryVideoFileName zip_add] in Hsave.
  fold name in Hsave. rewrite En in Hsave.
  injection Hsave as <-. cbn [dl_zip] in Hread.
  inversion Hread as [| we1 ze1 w1 z1 [Hn1 Hr1] Hrest]; subst.
  inversion Hrest as [| we2 ze2 w2 z2 [Hn2 Hr2] Hnil]; subst.
  inversion Hnil; subst. clear Hread Hrest Hnil.
  destruct ze1 as [n1 e1], ze2 as [n2 e2]. cbn in Hn1, Hn2, Hr1, Hr2. subst n1 n2.
  inversion Hr1 as [d b Hk Hd He |]; subst.
  inversion Hr2 as [| f j ty Hfile He]; subst.
  assert (Hne : name <> "") by apply name_or_default_nonempty.
  match goal with
  | _ : readsBack _ ?e1, _ : readsBack _ ?e2 |- _ =>
      assert (Hz1 : zip_file "analysis_data.json"
                      [("analysis_data.json", e1); (name, e2)] = Some e1)
        by reflexivity;
      assert (Hz2 : zip_file name [("analysis_data.json", e1); (name, e2)] = Some e2)
        by (cbn [zip_file]; rewrite En, String.eqb_refl; reflexivity);
      destruct (load_attaches_named_video s0 _ e1 e2 _ name Hz1 eq_refl eq_refl Hne Hz2)
        as (H1 & H2 & H3 & H4 & H5 & H6 & H7 & H8)
  end.
  set (s' := handleLoadAnalysis _ true s0) in *. clearbody s'.
  cbn in H1, H2, H5, H6, H7, H8.
  split.
  { rewrite <- (data_eta (data s')), H5, H6, H7, H8. apply data_eta. }
  split; [exact H3 |].
  split; [| exact H4].
  eexists. split; [exact H1 |]. split; [exact H2 |]. split; reflexivity.
Qed.

(** The recorded session, saved and loaded into a blank one. *)
Lemma save_load_round_trip_witness :
  data (handleLoadAnalysis (Some (ZipFile Demo.archive)) true Sample.blank)
  = data Demo.recorded.
Proof.
  assert (N : name_or_default (videoFileName (files Demo.recorded))
              <> "analysis_data.json") by discriminate.
  assert (R : archiveReadsBack
                [("analysis_data.json",
                  JsonOf {| ad_notes := "take 3";
                            ad_drawings := [Sample.path "p1" 1];
                            ad_annotations := [Sample.ann "a1" 9 "Bottom Turn";
                                               Sample.ann "a2" 4 "Cutback";
                                               Sample.ann "a3" 7 "Bottom Turn"];
                            ad_clips := [Sample.bottomTurn; Sample.cutback];
                            primaryVideoFileName := "wave.mp4" |});
                 ("wave.mp4", FileOf Demo.video)]
                Demo.archive).
  { repeat constructor. }
  destruct (save_load_round_trip Demo.recorded Sample.blank Demo.video "2024-05-01"
              _ Demo.archive eq_refl eq_refl N R) as (H & _).
  exact H.
Defined.

(** X20. A video called "analysis_data.json" takes the place of the record in
    the archive: what is saved holds one entry, the video file, and no
    record of the notes, drawings, annotations and clips. *)
Theorem save_video_named_like_record (date : string) (s : App) (file : File) :
  originalVideoFile (files s) = Some file ->
  videoFileName (files s) = Some "analysis_data.json" ->
  exists dl,
    snd (handleSaveAnalysis true true date s) = Some dl
    /\ dl_zip dl = [("analysis_data.json", FileOf file)].
Proof.
  intros Hf Hn. unfold handleSaveAnalysis. rewrite Hf, Hn. cbn.
  eexists. split; reflexivity.
Qed.

Lemma save_video_named_like_record_witness :
  let s := setVideoFileName (Some "analysis_data.json") Demo.recorded in
  exists dl,
    snd (handleSaveAnalysis true true "2024-05-01" s) = Some dl
    /\ List.length (dl_zip dl) = 1%nat.
Proof.
  cbv zeta.
  destruct (save_video_named_like_record "2024-05-01"
              (setVideoFileName (Some "analysis_data.json") Demo.recorded)
              Demo.video eq_refl eq_refl) as (dl & H1 & H2).
  exists dl. split; [exact H1 |]. now rewrite H2.
Defined.

(** ** The speed of a clip *)

Lemma speed_or_tick_in_clip (c : Control) (s : App) (v : Video) :
  isSpeedOrTick c = true ->
  videoRef (playback s) = Some v ->
  isClipPlaying (playback s) = true ->
  exists v',
    videoRef (playback (control s c)) = Some v'
    /\ playbackRate v' = playbackRate v
    /\ isClipPlaying (playback (control s c)) = true
    /\ playbackSpeed (playback (control s c))
       = selectedSpeed [c] (playbackSpeed (playback s)).
Proof.
  intros Hc Hv Hp. destruct c; try discriminate; cbn.
  - unfold handleSpeedChange. cbn. rewrite Hv, Hp. cbn. rewrite Hv.
    exists v. auto.
  - unfold videoAdvance. rewrite Hv. destruct (paused v); cbn; rewrite ?Hv;
      eexists; (split; [reflexivity |]); auto.
Qed.

(** X6. While a clip plays the rate of the element is the clip's: speed
    changes made meanwhile do not reach the element, they are only
    remembered; stopping the clip then sets the element to the speed
    selected last. *)
Theorem clip_owns_rate (clip : Clip) (cs : list Control) (s : App) (v : Video) :
  videoRef (playback s) = Some v ->
  forallb isSpeedOrTick cs = true ->
  let s1 := runControls cs (playClip clip s) in
  (exists v1, videoRef (playback s1) = Some v1 /\ playbackRate v1 = speed clip)
  /\ (exists v2, videoRef (playback (stopClip true s1)) = Some v2
                 /\ playbackRate v2 = selectedSpeed cs (playbackSpeed (playback s))).
Proof.
  intros Hv Hcs. cbv zeta.
  assert (H0 : exists v0, videoRef (playback (playClip clip s)) = Some v0
                          /\ playbackRate v0 = speed clip
                          /\ isClipPlaying (playback (playClip clip s)) = true
                          /\ playbackSpeed (playback (playClip clip s))
                             = playbackSpeed (playback s)).
  { unfold playClip. rewrite Hv.
    destruct (isClipPlaying (playback s)); cbn; eexists; repeat split; reflexivity. }
  revert H0. generalize (playClip clip s) as s0. generalize (playbackSpeed (playback s)) as r0.
  unfold runControls, selectedSpeed.
  induction cs as [| c cs IH]; intros r0 s0 (v0 & Hv0 & Hr0 & Hp0 & Hs0).
  - cbn. split; [exists v0; auto |].
    destruct (stopClip_resume s0 v0 Hv0) as (Hr & _).
    eexists. split; [exact Hr |]. cbn. exact Hs0.
  - cbn [forallb] in Hcs. apply andb_prop in Hcs. destruct Hcs as [Hc Hcs].
    cbn [fold_left].
    destruct (speed_or_tick_in_clip c s0 v0 Hc Hv0 Hp0) as (v' & Hv' & Hr' & Hp' & Hs').
    apply (IH Hcs). exists v'. repeat split; try assumption; [congruence |].
    rewrite Hs', Hs0. reflexivity.
Qed.

(** A clip at half speed over a session at speed 1; 2x is selected while
    it plays. *)
Lemma clip_owns_rate_witness :
  let s1 := runControls [Tick 9.5; SpeedChange 2] Demo.inClip in
  (exists v1, videoRef (playback s1) = Some v1 /\ playbackRate v1 = 0.5)
  /\ (exists v2, videoRef (playback (stopClip true s1)) = Some v2 /\ playbackRate v2 = 2).
Proof.
  exact (clip_owns_rate Sample.bottomTurn [Tick 9.5; SpeedChange 2] Sample.annotated
           {| currentTime := 2; duration := 10; paused := true; playbackRate := 1 |}
           eq_refl eq_refl).
Defined.

(** ** What has just been placed is painted *)

Lemma sub_diag (t : number) : is_finite t = true -> t - t = 0.
Proof.
  intros Hfin. apply Prim2SF_inj. rewrite FloatAxioms.sub_spec.
  change (Prim2SF 0) with (S754_zero false).
  unfold is_finite, is_nan, is_infinity in Hfin.
  rewrite !FloatAxioms.eqb_spec, FloatAxioms.abs_spec in Hfin.
  change (Prim2SF infinity) with (S754_infinity false) in Hfin.
  destruct (Prim2SF t) as [sg | sg | | sg m e].
  - now destruct sg.
  - destruct sg; discriminate Hfin.
  - discriminate Hfin.
  - assert (Hz : forall z, IntDef.Z.sub z z = 0%Z) by (intros z; apply Z.sub_diag).
    assert (Hm : IntDef.Z.min e e = e) by apply Z.min_id.
    unfold SF64sub, SFsub, shl_align. rewrite Hm, Hz. reflexivity.
Qed.

Lemma shown_now (t : number) : is_finite t = true -> shown t t = true.
Proof. intros H. unfold shown, Math_abs. now rewrite (sub_diag t H). Qed.

(** X13. A point is painted as soon as it is placed: when the prompt callback
    runs at a finite position, over a canvas with its context, the next
    repaint ends with the marker and the label of the new annotation: the
    circle of radius 8 at its place in its colour, outlined in white, then
    the label box and the name under it. *)
Theorem placed_point_is_painted (pos : Point) (color text annId clipId : string)
    (s : App) (canvas : Canvas) :
  canvasRef s = Some canvas ->
  has2d canvas = true ->
  is_finite (videoTime s) = true ->
  let s' := addPointAndClip pos color text annId clipId s in
  let px := x pos * cv_width canvas in
  let py := y pos * cv_height canvas in
  let textWidth := measureText_width canvas text in
  exists before,
    redrawCanvas s'
    = Some (before
            ++ [beginPath; arc px py 8 0 (2 * 0x1.921fb54442d18p+1);
                fillStyle color; fill;
                strokeStyle "white"; lineWidth 2; stroke;
                font "12px sans-serif"; fillStyle "rgba(0,0,0,0.8)";
                fillRect (px - textWidth / 2 - 4) (py + 12) (textWidth + 8) 20;
                fillStyle "white"; textAlign "center";
                fillText text px (py + 26)])%list.
Proof.
  intros Hc Hctx Hfin. cbv zeta.
  set (s' := addPointAndClip pos color text annId clipId s).
  assert (Hs : canvasRef s' = canvasRef s /\ videoTime s' = videoTime s
               /\ drawings (data s') = drawings (data s)
               /\ annotations (data s')
                  = (annotations (data s)
                     ++ [ {| a_id := annId; a_time := videoTime s; a_x := x pos;
                             a_y := y pos; a_text := text; a_color := color |} ])%list)
    by (repeat split; reflexivity).
  destruct Hs as (H1 & H2 & H3 & H4). clearbody s'.
  unfold redrawCanvas. rewrite H1, Hc, Hctx, H2, H3, H4. cbn [negb].
  rewrite flat_map_app. cbn [flat_map]. unfold paintAnnotation at 2.
  cbn [a_time]. rewrite (shown_now _ Hfin), app_nil_r.
  eexists (clearRect 0 0 (cv_width canvas) (cv_height canvas) :: _ ++ _)%list.
  cbn [app]. rewrite app_assoc. reflexivity.
Qed.

Lemma placed_point_is_painted_witness :
  exists before,
    redrawCanvas (addPointAndClip {| x := 0.5; y := 0.5 |} "#00ff00" "Bottom Turn"
                    "a1" "c1" (Sample.session point 9 10 true))
    = Some (before
            ++ [beginPath; arc 320 180 8 0 0x1.921fb54442d18p+2;
                fillStyle "#00ff00"; fill;
                strokeStyle "white"; lineWidth 2; stroke;
                font "12px sans-serif"; fillStyle "rgba(0,0,0,0.8)";
                fillRect 292 192 56 20;
                fillStyle "white"; textAlign "center";
                fillText "Bottom Turn" 320 206])%list.
Proof.
  exact (placed_point_is_painted {| x := 0.5; y := 0.5 |} "#00ff00" "Bottom Turn"
           "a1" "c1" (Sample.session point 9 10 true) Sample.canvas
           eq_refl eq_refl eq_refl).
Defined.

(** X14. A stroke that is released leaves no line on the overlay. When a pen
    stroke of two points or more ends at a finite position, over a canvas
    with its context, the next repaint paints the earlier drawings, then
    for the new path its style, [beginPath] and [stroke] with no [moveTo]
    and no [lineTo] between them (the path was stored without its points),
    then the annotations. *)
Theorem released_stroke_paints_no_line (newId : string) (s : App) (canvas : Canvas) :
  isDrawing (tools s) = true ->
  currentMode (tools s) = pen ->
  (1 < List.length (currentPathRef (tools s)))%nat ->
  canvasRef s = Some canvas ->
  has2d canvas = true ->
  is_finite (videoTime s) = true ->
  let s' := handleEndInteraction newId s in
  redrawCanvas s'
  = Some (clearRect 0 0 (cv_width canvas) (cv_height canvas)
          :: flat_map (paintDrawing canvas (videoTime s)) (drawings (data s))
          ++ [strokeStyle (brushColor (tools s)); lineWidth (brushSize (tools s));
              lineCap "round"; lineJoin "round"; beginPath; stroke]
          ++ flat_map (paintAnnotation canvas (videoTime s)) (annotations (data s)))%list.
Proof.
  intros Hd Hm Hl Hc Hctx Hfin. cbv zeta.
  assert (E : Nat.ltb 1 (List.length (currentPathRef (tools s))) = true)
    by now apply Nat.ltb_lt.
  set (s' := handleEndInteraction newId s).
  assert (Hs : canvasRef s' = canvasRef s /\ videoTime s' = videoTime s
               /\ annotations (data s') = annotations (data s)
               /\ drawings (data s')
                  = (drawings (data s)
                     ++ [ {| d_id := newId; d_time := videoTime s;
                             d_points := [];
                             d_color := brushColor (tools s);
                             d_size := brushSize (tools s) |} ])%list).
  { subst s'. unfold handleEndInteraction. rewrite Hd, Hm.
    cbn -[Nat.ltb]. rewrite E. repeat split; reflexivity. }
  destruct Hs as (H1 & H2 & H3 & H4). clearbody s'.
  unfold redrawCanvas. rewrite H1, Hc, Hctx, H2, H3, H4. cbn [negb].
  rewrite flat_map_app. cbn [flat_map]. unfold paintDrawing at 2.
  cbn [d_time]. rewrite (shown_now _ Hfin), app_nil_r, <- app_assoc.
  reflexivity.
Qed.

(** A stroke from the centre to the upper left, released at 1s. *)
Lemma released_stroke_paints_no_line_witness :
  let s := run [PointerDown (MouseEvent 330 200); PointerMove (MouseEvent 170 110)]
             (Sample.session pen 1 10 true) in
  currentPathRef (tools s) = [ {| x := 0.5; y := 0.5 |}; {| x := 0.25; y := 0.25 |} ]
  /\ redrawCanvas (handleEndInteraction "d1" s)
     = Some [clearRect 0 0 640 360;
             strokeStyle "#00ff00"; lineWidth 5; lineCap "round"; lineJoin "round";
             beginPath; stroke].
Proof.
  cbv zeta. split; [reflexivity |].
  assert (L : Nat.lt 1 (List.length [ {| x := 0.5; y := 0.5 |}; {| x := 0.25; y := 0.25 |} ]))
    by (cbn; unfold Nat.lt; lia).
  rewrite (released_stroke_paints_no_line "d1"
             (run [PointerDown (MouseEvent 330 200); PointerMove (MouseEvent 170 110)]
                (Sample.session pen 1 10 true))
             Sample.canvas eq_refl eq_refl L eq_refl eq_refl eq_refl).
  reflexivity.
Defined.

(** ** What has been deleted is not painted *)

Lemma fillText_in_tracePoints canvas pts txt px py :
  ~ In (fillText txt px py) (tracePoints canvas pts).
Proof.
  destruct pts as [| p rest]; cbn; [tauto |].
  intros [H | H]; [discriminate |].
  apply in_map_iff in H. destruct H as (q & H & _). discriminate.
Qed.

Lemma fillText_in_paintDrawing canvas time d txt px py :
  ~ In (fillText txt px py) (paintDrawing canvas time d).
Proof.
  unfold paintDrawing, strokeDrawing. destruct (shown _ _); [| cbn; tauto].
  intros H. apply in_app_or in H. destruct H as [H | H].
  - cbn in H. repeat (destruct H as [H | H]; [discriminate |]). exact H.
  - apply in_app_or in H. destruct H as [H | H].
    + now apply fillText_in_tracePoints in H.
    + cbn in H. destruct H as [H | H]; [discriminate | exact H].
Qed.

Lemma fillText_in_paintAnnotation canvas time a txt px py :
  In (fillText txt px py) (paintAnnotation canvas time a) -> txt = a_text a.
Proof.
  unfold paintAnnotation, markAnnotation. destruct (shown _ _); [| cbn; tauto].
  cbn. intros H.
  repeat (destruct H as [H | H]; [try discriminate; try (injection H as <- _ _; reflexivity) |]).
  contradiction.
Qed.

(** X12. Once a clip is deleted its name is written nowhere on the overlay: at
    whatever position the video is, no repaint draws a label with the name
    of the deleted clip. *)
Theorem deleted_name_not_painted (c : Clip) (s : App) (ops : list CanvasOp)
    (px py : number) :
  redrawCanvas (deleteClip c s) = Some ops ->
  ~ In (fillText (c_name c) px py) ops.
Proof.
  unfold redrawCanvas. cbn.
  destruct (canvasRef s) as [canvas |]; [| discriminate].
  destruct (has2d canvas); [| discriminate]. cbn.
  intros E. injection E as <-. intros [H | H]; [discriminate |].
  apply in_app_or in H. destruct H as [H | H].
  - apply in_flat_map in H. destruct H as (d & _ & H).
    now apply fillText_in_paintDrawing in H.
  - apply in_flat_map in H. destruct H as (a & Ha & H).
    apply fillText_in_paintAnnotation in H.
    apply filter_In in Ha. destruct Ha as [_ Ha].
    apply str_neq_true in Ha. congruence.
Qed.

Lemma deleted_name_not_painted_witness :
  let s := setVideo (Some {| currentTime := 9; duration := 10; paused := true;
                             playbackRate := 1 |}) Sample.annotated in
  (exists ops, redrawCanvas s = Some ops /\ In (fillText "Bottom Turn" 320 206) ops)
  /\ (exists ops, redrawCanvas (deleteClip Sample.bottomTurn s) = Some ops
                  /\ ~ In (fillText "Bottom Turn" 320 206) ops).
Proof.
  cbv zeta. split.
  - eexists. split; [reflexivity |]. cbn. tauto.
  - eexists. split; [reflexivity |].
    apply (deleted_name_not_painted Sample.bottomTurn
             (setVideo (Some {| currentTime := 9; duration := 10; paused := true;
                                playbackRate := 1 |}) Sample.annotated)).
    reflexivity.
Defined.

(** ** The origin of the normalized frame *)

Lemma zero_div_positive (w : number) : (0 <? w) = true -> 0 / w = 0.
Proof.
  intros Hw. apply Prim2SF_inj. rewrite FloatAxioms.div_spec.
  rewrite FloatAxioms.ltb_spec in Hw.
  change (Prim2SF 0) with (S754_zero false) in *.
  destruct (Prim2SF w) as [sg | sg | | sg m e]; cbn in Hw; try discriminate;
    destruct sg; try discriminate; reflexivity.
Qed.

(** X21. A pointer on the top-left corner of the canvas box is normalized to
    the origin (0, 0), for a mouse and for the first touch alike, whatever
    the positive size of the box and wherever the box is on screen. *)
Theorem top_left_is_origin (canvas : Canvas) (others : list Touch) :
  let rect := getBoundingClientRect canvas in
  is_finite (left rect) = true ->
  is_finite (top rect) = true ->
  (0 <? width rect) = true ->
  (0 <? height rect) = true ->
  getNormalizedPos (MouseEvent (left rect) (top rect)) canvas
  = Some {| x := 0; y := 0 |}
  /\ getNormalizedPos
       (TouchEvent ({| t_clientX := left rect; t_clientY := top rect |} :: others)) canvas
     = Some {| x := 0; y := 0 |}.
Proof.
  cbv zeta. intros Hl Ht Hw Hh. unfold getNormalizedPos. cbn.
  rewrite (sub_diag _ Hl), (sub_diag _ Ht).
  rewrite (zero_div_positive _ Hw), (zero_div_positive _ Hh). split; reflexivity.
Qed.

Lemma top_left_is_origin_witness :
  getNormalizedPos (MouseEvent 10 20) Sample.canvas = Some {| x := 0; y := 0 |}.
Proof.
  exact (proj1 (top_left_is_origin Sample.canvas [] eq_refl eq_refl eq_refl eq_refl)).
Defined.
